(** * Exoscale provider: lifecycle callbacks of the network, affinity-group
      and domain resources, embedded as state-passing functions.

    The callbacks read and write one [ResourceData] record, talk to the
    remote control plane through the egoscale client, and return a Go
    [error].  Here a callback is a function of a [State] (the record, the
    replies the remote will give, the calls made so far, the log) to an
    [Outcome] and the new [State]. *)

From stdpp Require Import base option list strings gmap.
From Stdlib Require Import ZArith Ascii.

Open Scope string_scope.
Open Scope list_scope.

(** ** Go errors *)

(** egoscale.ErrorCode: only the two codes the callbacks compare against are
    named; every other code is [OtherCode]. *)
Inductive ErrorCode :=
| ParamError
| NotFound
| OtherCode (n : Z).

#[global] Instance ErrorCode_eq_dec : EqDecision ErrorCode.
Proof. solve_decision. Defined.

(** A value of Go's [error] interface.  [ErrorResponse] is the typed
    *egoscale.ErrorResponse, [ErrNotFound] the sentinel egoscale.ErrNotFound;
    the others are built by errors.New and fmt.Errorf (format string kept as
    in the source, arguments beside it), which is also how an error of any
    other dynamic type (a timeout, a transport failure) appears. *)
Inductive error :=
| ErrorResponse (code : ErrorCode) (text : string)
| ErrNotFound
| errors_New (msg : string)
| fmt_Errorf (format : string) (args : list string)
| fmt_Errorf_wrap (format : string) (cause : error).

(** [err == egoscale.ErrNotFound] *)
Definition is_ErrNotFound (e : error) : bool :=
  match e with ErrNotFound => true | _ => false end.

(** How a Go function ends: it returns a value with a nil error, returns a
    non-nil error, or panics. *)
Inductive Outcome (A : Type) :=
| Ok (a : A)
| Err (e : error)
| Panic (msg : string).
Arguments Ok {A} a.
Arguments Err {A} e.
Arguments Panic {A} msg.

(** ** Libraries outside the repository *)

(** egoscale's UUID and Go's net.IP: the types, their parsers and their
    String methods.  [ParseIP] returns [None] for Go's nil IP. *)
Class Externals := {
  UUID : Type;
  UUID_eq_dec :: EqDecision UUID;
  ParseUUID : string → error + UUID;
  UUID_String : UUID → string;
  IP : Type;
  ParseIP : string → option IP;
  IP_String : IP → string;
}.

Section Provider.
Context `{Ext : Externals}.

(** ** egoscale types *)

Record Zone := mkZone {
  Zone_ID : option UUID;
  Zone_Name : string;
}.

Record ResourceTag := mkResourceTag {
  Tag_Key : string;
  Tag_Value : string;
}.

Record Network := mkNetwork {
  Network_ID : option UUID;
  Network_Name : string;
  Network_DisplayText : string;
  Network_ZoneName : string;
  Network_StartIP : option IP;
  Network_EndIP : option IP;
  Network_Netmask : option IP;
  Network_Tags : list ResourceTag;
}.

Record ListNetworksResponse := mkListNetworksResponse {
  LNR_Count : Z;
  LNR_Network : list Network;
}.

Record AffinityGroup := mkAffinityGroup {
  AG_ID : option UUID;
  AG_Name : string;
  AG_Description : string;
  AG_Type : string;
  AG_VirtualMachineIDs : list UUID;
}.

Record DNSDomain := mkDNSDomain {
  Domain_ID : option string;
  Domain_UnicodeName : option string;
}.

(** egoscale.Command: the request structures the callbacks build. *)
Inductive Command :=
| ListZones
| ListNetworks (id : option UUID) (zoneID : option UUID)
| CreateNetwork (name displayText : string) (zoneID : option UUID)
                (startIP endIP netmask : option IP)
| UpdateNetwork (id : option UUID) (name displayText : string)
                (startIP endIP netmask : option IP)
| DeleteNetwork (id : option UUID)
| CreateAffinityGroup (name description type : string)
| CreateTags (resourceIDs : list UUID) (resourceType : string)
             (tags : list ResourceTag)
| DeleteTags (resourceIDs : list UUID) (resourceType : string)
             (tags : list ResourceTag).

(** The client methods the callbacks call. *)
Inductive Call :=
| RequestWithContext (cmd : Command)
| BooleanRequestWithContext (cmd : Command)
| ListWithContext (cmd : Command)
| GetWithContext (ag : AffinityGroup)
| DeleteWithContext (ag : AffinityGroup)
| ListDNSDomains (zone : string).

(** An element of the []interface{} that ListWithContext returns. *)
Inductive Item :=
| Item_Network (n : Network)
| Item_Zone (z : Zone).

(** What a client method hands back as its first result: an [interface{}]
    holding one of the response structures ([RNil] is Go's nil). *)
Inductive Response :=
| RNil
| RZones (zones : list Zone)
| RNetwork (n : Network)
| RNetworks (r : ListNetworksResponse)
| RAffinityGroup (ag : AffinityGroup)
| RList (items : list Item)
| RDomains (items : list DNSDomain).

Inductive Reply :=
| Reply_ok (r : Response)
| Reply_err (e : error).

(** Go's result pair of a client method: a nil response beside an error. *)
Definition go_pair (r : Reply) : Response * option error :=
  match r with
  | Reply_ok v => (v, None)
  | Reply_err e => (RNil, Some e)
  end.

Definition Event : Type := Call * Reply.

Definition is_mutation (c : Command) : bool :=
  match c with
  | ListZones | ListNetworks _ _ => false
  | _ => true
  end.

(** A call that changes the remote side. *)
Definition mutating (c : Call) : bool :=
  match c with
  | RequestWithContext cmd | BooleanRequestWithContext cmd => is_mutation cmd
  | DeleteWithContext _ => true
  | ListWithContext _ | GetWithContext _ | ListDNSDomains _ => false
  end.

(** ** schema.ResourceData *)

Inductive ValueType := TypeString | TypeMap | TypeSet.

#[global] Instance ValueType_eq_dec : EqDecision ValueType.
Proof. solve_decision. Defined.

Inductive Value :=
| VString (s : string)
| VMap (m : gmap string string)
| VSet (s : gset string).

Definition type_of (v : Value) : ValueType :=
  match v with
  | VString _ => TypeString
  | VMap _ => TypeMap
  | VSet _ => TypeSet
  end.

(** The record the host hands to a callback: the declared schema, the
    identifier, the attributes of the prior state (the old side of
    GetChange) and the current attributes (configuration overlaid with what
    the callback has set). *)
Record ResourceData := mkResourceData {
  rd_schema : list (string * ValueType);
  rd_id : string;
  rd_state : gmap string Value;
  rd_attrs : gmap string Value;
}.

Fixpoint schema_lookup (s : list (string * ValueType)) (key : string)
  : option ValueType :=
  match s with
  | [] => None
  | (k, t) :: s' => if String.eqb k key then Some t else schema_lookup s' key
  end.

Definition as_string (v : option Value) : string :=
  match v with
  | Some (VString s) => s
  | _ => ""
  end.

(** [d.Id()] *)
Definition Id (d : ResourceData) : string := rd_id d.

(** [d.SetId(id)] *)
Definition SetId (id : string) (d : ResourceData) : ResourceData :=
  {| rd_schema := rd_schema d; rd_id := id;
     rd_state := rd_state d; rd_attrs := rd_attrs d |}.

(** [d.Get(key).(string)]: the zero value when the attribute is unset. *)
Definition GetString (d : ResourceData) (key : string) : string :=
  as_string (rd_attrs d !! key).

(** [_, ok := d.GetOk(key)] on a string attribute: set to a non-zero value. *)
Definition GetOk (d : ResourceData) (key : string) : bool :=
  negb (String.eqb (GetString d key) "").

(** [o, n := d.GetChange(key)] with both sides asserted to string. *)
Definition GetChange (d : ResourceData) (key : string) : string * string :=
  (as_string (rd_state d !! key), GetString d key).

(** [d.HasChange(key)] *)
Definition HasChange (d : ResourceData) (key : string) : bool :=
  let '(o, n) := GetChange d key in negb (String.eqb o n).

(** [d.Set(key, v)]: refused when the schema does not declare [key] with the
    type of [v]; the record is then left as it was.  (The two errors stand
    for the host library's; no callback looks into them.) *)
Definition Set_ (key : string) (v : Value) (d : ResourceData)
  : option error * ResourceData :=
  match schema_lookup (rd_schema d) key with
  | Some t =>
      if decide (t = type_of v)
      then (None, {| rd_schema := rd_schema d; rd_id := rd_id d;
                     rd_state := rd_state d;
                     rd_attrs := <[key := v]> (rd_attrs d) |})
      else (Some (fmt_Errorf "%s: wrong type for attribute" [key]), d)
  | None => (Some (fmt_Errorf "Invalid address to set: %s" [key]), d)
  end.

(** ** The state threaded through a callback *)

Inductive Level := DEBUG | WARN.

Definition LogEntry : Type := Level * string.

Record State := mkState {
  data : ResourceData;
  remote : list Reply;
  trace : list Event;
  logs : list LogEntry;
}.

Definition M (A : Type) : Type := State → Outcome A * State.

Definition ret {A} (a : A) : M A := λ st, (Ok a, st).

Definition bind {A B} (m : M A) (k : A → M B) : M B :=
  λ st, match m st with
        | (Ok a, st') => k a st'
        | (Err e, st') => (Err e, st')
        | (Panic msg, st') => (Panic msg, st')
        end.

Definition fail {A} (e : error) : M A := λ st, (Err e, st).
Definition panic {A} (msg : string) : M A := λ st, (Panic msg, st).

Notation "x <- m ;; k" := (bind m (λ x, k))
  (at level 10, m at level 99, k at level 200).
Notation "m ;;; k" := (bind m (λ _, k))
  (at level 100, k at level 200, right associativity).

Definition get_data : M ResourceData := λ st, (Ok (data st), st).

Definition modify_data (f : ResourceData → ResourceData) : M unit :=
  λ st, (Ok tt, {| data := f (data st); remote := remote st;
                   trace := trace st; logs := logs st |}).

(** A function that returns a plain [error]: nil continues. *)
Definition check (e : option error) : M unit :=
  match e with
  | None => ret tt
  | Some e => fail e
  end.

(** [if err := d.Set(key, v); err != nil { return err }] *)
Definition set_checked (key : string) (v : Value) : M unit :=
  λ st, let '(e, d) := Set_ key v (data st) in
        check e {| data := d; remote := remote st;
                   trace := trace st; logs := logs st |}.

(** [d.Set(key, v) // nolint: errcheck] *)
Definition set_unchecked (key : string) (v : Value) : M unit :=
  modify_data (λ d, snd (Set_ key v d)).

Definition tflog (lvl : Level) (msg : string) : M unit :=
  λ st, (Ok tt, {| data := data st; remote := remote st; trace := trace st;
                   logs := logs st ++ [(lvl, msg)] |}).

(** The remote side answers a call with the next reply it has in store; a
    remote that has nothing left to say has closed the connection.  The
    call and its reply are appended to the trace. *)
Definition next_reply (rs : list Reply) : Reply * list Reply :=
  match rs with
  | r :: rest => (r, rest)
  | [] => (Reply_err (errors_New "EOF"), [])
  end.

Definition client (c : Call) : M (Response * option error) :=
  λ st, let '(r, rest) := next_reply (remote st) in
        (Ok (go_pair r),
         {| data := data st; remote := rest;
            trace := trace st ++ [(c, r)]; logs := logs st |}).

(** Go type assertions on a response, and pointer dereferences. *)
Definition conversion_panic : string := "interface conversion".
Definition nil_panic : string := "nil pointer dereference".
Definition index_panic : string := "index out of range".

Definition assert_Zones (r : Response) : M (list Zone) :=
  match r with RZones zs => ret zs | _ => panic conversion_panic end.
Definition assert_Network (r : Response) : M Network :=
  match r with RNetwork n => ret n | _ => panic conversion_panic end.
Definition assert_Networks (r : Response) : M ListNetworksResponse :=
  match r with RNetworks l => ret l | _ => panic conversion_panic end.
Definition assert_AffinityGroup (r : Response) : M AffinityGroup :=
  match r with RAffinityGroup g => ret g | _ => panic conversion_panic end.
Definition assert_List (r : Response) : M (list Item) :=
  match r with RList l => ret l | RNil => ret [] | _ => panic conversion_panic end.
Definition assert_Domains (r : Response) : M (list DNSDomain) :=
  match r with RDomains l => ret l | RNil => ret [] | _ => panic conversion_panic end.

Definition deref {A} (p : option A) : M A :=
  match p with Some a => ret a | None => panic nil_panic end.

Definition lift {A} (o : Outcome A) : M A := λ st, (o, st).

(** [p == nil] and [p != nil] *)
Definition isnil {A} (p : option A) : bool :=
  match p with None => true | Some _ => false end.
Definition notnil {A} (p : option A) : bool := negb (isnil p).

(** [client.BooleanRequestWithContext(ctx, cmd)] returns only an error. *)
Definition client_bool (cmd : Command) : M (option error) :=
  p <- client (BooleanRequestWithContext cmd);; ret (snd p).

(** ** Helpers of the repository that build requests from the record *)

(** [createTags] and [updateTags] take the record, the attribute name and
    the resource type and return the tag commands to send (no client is
    passed to them); [Network_ResourceType] is what
    [egoscale.Network.ResourceType()] returns and [defaultZone] the
    provider-wide constant. *)
Class Helpers := {
  createTags : ResourceData → string → string → error + option Command;
  updateTags : ResourceData → string → string → error + list Command;
  Network_ResourceType : string;
  defaultZone : string;
}.

Context `{Hlp : Helpers}.

(** Modelled from the spec: [getZoneByName] is not among the sources.  The
    resolver takes a zone name and gives the zone, or a NotFound failure if
    no zone matches, by a linear scan over the full zone listing. *)
Definition getZoneByName (zoneName : string) : M Zone :=
  p <- client (RequestWithContext ListZones);;
  check (snd p);;;
  zones <- assert_Zones (fst p);;
  match List.find (λ z, String.eqb (Zone_Name z) zoneName) zones with
  | Some zone => ret zone
  | None => fail ErrNotFound
  end.

(** The not-found errors of the API: the sentinel and the typed response
    carrying the not-found code. *)
Definition is_not_found (e : error) : bool :=
  match e with
  | ErrNotFound => true
  | ErrorResponse c _ => bool_decide (c = NotFound)
  | _ => false
  end.

(** Modelled from the spec: [handleNotFound] is not among the sources.  A
    not-found error clears the local identifier and is swallowed; any other
    error is handed back. *)
Definition handleNotFound (err : error) : M (option error) :=
  if is_not_found err
  then modify_data (SetId "");;; ret None
  else ret (Some err).

(** ** resource_exoscale_network *)

(** The attributes of [resourceNetwork]; "tags" is the attribute [addTags]
    adds, a map from string to string. *)
Definition resourceNetworkSchema : list (string * ValueType) :=
  [ ("zone", TypeString); ("network_offering", TypeString);
    ("name", TypeString); ("display_text", TypeString);
    ("start_ip", TypeString); ("end_ip", TypeString);
    ("netmask", TypeString); ("tags", TypeMap) ].

(** [tags[tag.Key] = tag.Value] over the remote tags, in order. *)
Definition tags_map (tags : list ResourceTag) : gmap string string :=
  foldl (λ m tag, <[Tag_Key tag := Tag_Value tag]> m) ∅ tags.

Definition resourceNetworkApply (network : Network) : M unit :=
  id <- deref (Network_ID network);;
  modify_data (SetId (UUID_String id));;;
  set_checked "name" (VString (Network_Name network));;;
  set_checked "display_text" (VString (Network_DisplayText network));;;
  set_checked "zone" (VString (Network_ZoneName network));;;
  match Network_StartIP network, Network_EndIP network,
        Network_Netmask network with
  | Some startIP, Some endIP, Some netmask =>
      set_checked "start_ip" (VString (IP_String startIP));;;
      set_checked "end_ip" (VString (IP_String endIP));;;
      set_checked "netmask" (VString (IP_String netmask))
  | _, _, _ =>
      set_unchecked "start_ip" (VString "");;;
      set_unchecked "end_ip" (VString "");;;
      set_unchecked "netmask" (VString "")
  end;;;
  set_checked "tags" (VMap (tags_map (Network_Tags network))).

(** The loop of [resourceNetworkFind] over the zones. *)
Fixpoint resourceNetworkFind_loop (id : UUID) (zones : list Zone)
  : M ListNetworksResponse :=
  match zones with
  | [] => fail ErrNotFound
  | zone :: rest =>
      p <- client (RequestWithContext (ListNetworks (Some id) (Zone_ID zone)));;
      let '(resp, err) := p in
      let proceed : M ListNetworksResponse :=
        r <- assert_Networks resp;;
        if (0 <? LNR_Count r)%Z then ret r
        else resourceNetworkFind_loop id rest in
      match err with
      | Some (ErrorResponse code text) =>
          if decide (code = ParamError) then resourceNetworkFind_loop id rest
          else if decide (code ≠ NotFound) then fail (ErrorResponse code text)
          else proceed
      | _ => proceed
      end
  end.

Definition resourceNetworkFind : M ListNetworksResponse :=
  d <- get_data;;
  id <- match ParseUUID (Id d) with
        | inr id => ret id
        | inl _ => panic "MustParseUUID"
        end;;
  p <- client (RequestWithContext ListZones);;
  check (snd p);;;
  zones <- assert_Zones (fst p);;
  resourceNetworkFind_loop id zones.

Definition resourceNetworkRead : M unit :=
  tflog DEBUG "beginning read";;;
  networks <- resourceNetworkFind;;
  d <- get_data;;
  if (LNR_Count networks =? 0)%Z
  then fail (fmt_Errorf "no network found for ID %s" [Id d])
  else
    network <- match LNR_Network networks with
               | n :: _ => ret n
               | [] => panic index_panic
               end;;
    tflog DEBUG "read finished successfully";;;
    resourceNetworkApply network.

(** Run [m] and hand its returned error back as a value, the way the
    caller of a Go function sees it. *)
Definition try {A} (m : M A) : M (error + A) :=
  λ st, match m st with
        | (Ok a, st') => (Ok (inr a), st')
        | (Err e, st') => (Ok (inl e), st')
        | (Panic msg, st') => (Panic msg, st')
        end.

Definition resourceNetworkExists : M (bool * option error) :=
  r <- try resourceNetworkFind;;
  match r with
  | inl err =>
      if is_ErrNotFound err then ret (false, None)
      else ret (false, Some err)
  | inr networks =>
      if (LNR_Count networks =? 0)%Z
      then modify_data (SetId "");;; ret (false, None)
      else ret (true, None)
  end.

Definition resourceNetworkCreate : M unit :=
  tflog DEBUG "beginning create";;;
  d <- get_data;;
  let name := GetString d "name" in
  let displayText := GetString d "display_text" in
  let displayText := if String.eqb displayText "" then name else displayText in
  let zoneName := GetString d "zone" in
  zone <- getZoneByName zoneName;;
  let startIP := ParseIP (GetString d "start_ip") in
  let endIP := ParseIP (GetString d "end_ip") in
  let netmask := ParseIP (GetString d "netmask") in
  if (isnil startIP && notnil endIP) || (notnil startIP && isnil endIP)
  then fail (errors_New "start_ip and end_ip must be both specified")
  else if (notnil startIP && notnil endIP) && isnil netmask
  then fail (errors_New "netmask must be specified with start_ip and end_ip")
  else
    p <- client (RequestWithContext
                   (CreateNetwork name displayText (Zone_ID zone)
                                  startIP endIP netmask));;
    check (snd p);;;
    network <- assert_Network (fst p);;
    id <- deref (Network_ID network);;
    modify_data (SetId (UUID_String id));;;
    d <- get_data;;
    match createTags d "tags" Network_ResourceType with
    | inl err => fail err
    | inr cmd =>
        match cmd with
        | Some cmd =>
            err <- client_bool cmd;;
            match err with
            | Some err =>
                (* Attempting to destroy the freshly created network *)
                e <- client_bool (DeleteNetwork (Network_ID network));;
                match e with
                | Some _ =>
                    tflog WARN
                      "failure to create the tags, but the network was created"
                | None => ret tt
                end;;;
                fail err
            | None => ret tt
            end
        | None => ret tt
        end
    end;;;
    tflog DEBUG "create finished successfully";;;
    resourceNetworkRead.

(** [for _, req := range requests] of [resourceNetworkUpdate]. *)
Fixpoint send_requests (requests : list Command) : M unit :=
  match requests with
  | [] => ret tt
  | req :: rest =>
      p <- client (RequestWithContext req);;
      check (snd p);;;
      send_requests rest
  end.

(** [for _, key := range []string{...}] of [resourceNetworkUpdate]. *)
Fixpoint check_not_cleared (d : ResourceData) (keys : list string) : M unit :=
  match keys with
  | [] => ret tt
  | key :: rest =>
      let '(o, n) := GetChange d key in
      if negb (String.eqb o "") && String.eqb n ""
      then fail (fmt_Errorf
        "[ERROR] new value of %q cannot be empty. old value was %s. The resource must be recreated instead"
        [key; o])
      else check_not_cleared d rest
  end.

Definition resourceNetworkUpdate : M unit :=
  tflog DEBUG "beginning update";;;
  d <- get_data;;
  match ParseUUID (Id d) with
  | inl err => fail err
  | inr id =>
      (if HasChange d "start_ip" || HasChange d "end_ip"
       then check_not_cleared d ["start_ip"; "end_ip"]
       else ret tt);;;
      (* Update name and display_text *)
      let updateNetwork :=
        UpdateNetwork (Some id) (GetString d "name")
                      (GetString d "display_text")
                      (ParseIP (GetString d "start_ip"))
                      (ParseIP (GetString d "end_ip"))
                      (ParseIP (GetString d "netmask")) in
      (* Update tags *)
      match updateTags d "tags" Network_ResourceType with
      | inl err => fail err
      | inr requests =>
          send_requests (requests ++ [updateNetwork]);;;
          tflog DEBUG "update finished successfully";;;
          resourceNetworkRead
      end
  end.

Definition resourceNetworkDelete : M unit :=
  tflog DEBUG "beginning delete";;;
  d <- get_data;;
  match ParseUUID (Id d) with
  | inl err => fail err
  | inr id =>
      err <- client_bool (DeleteNetwork (Some id));;
      check err;;;
      tflog DEBUG "delete finished successfully"
  end.

(** ** datasource_exoscale_network *)

Definition dataSourceNetworkSchema : list (string * ValueType) :=
  [ ("zone", TypeString); ("id", TypeString); ("name", TypeString);
    ("description", TypeString); ("start_ip", TypeString);
    ("end_ip", TypeString); ("netmask", TypeString) ].

(** The search loop of [dataSourceNetworkRead]: [network] is the match kept
    so far; the result is the match after the loop, or the error or panic
    that left it early. *)
Fixpoint dataSourceNetworkRead_loop (byID : bool) (networkID : option UUID)
    (networkName : string) (resp : list Item) (network : option Network)
  : Outcome (option Network) :=
  match resp with
  | [] => Ok network
  | v :: rest =>
      match v with
      | Item_Network net =>
          let by_name (_ : unit) :=
            if String.eqb (Network_Name net) networkName
            then
              match network with
              | Some _ =>
                  Err (fmt_Errorf
                    "found multiple networks named %q, please specify a unique ID instead"
                    [Network_Name net])
              | None =>
                  dataSourceNetworkRead_loop byID networkID networkName rest
                                             (Some net)
              end
            else dataSourceNetworkRead_loop byID networkID networkName rest
                                            network in
          if byID then
            match networkID, Network_ID net with
            | Some want, Some have =>
                if decide (have = want) then Ok (Some net) else by_name tt
            | _, _ => Panic nil_panic
            end
          else by_name tt
      | _ => Panic conversion_panic
      end
  end.

Definition dataSourceNetworkRead : M unit :=
  d <- get_data;;
  let zoneName := GetString d "zone" in
  zone <- getZoneByName zoneName;;
  let byName := GetOk d "name" in
  let byID := GetOk d "id" in
  if negb byName && negb byID
  then fail (errors_New "either name or id must be specified")
  else
    let networkName := if byName then GetString d "name" else "" in
    networkID <- (if byID then
                    match ParseUUID (GetString d "id") with
                    | inr id => ret (Some id)
                    | inl err => fail (fmt_Errorf_wrap "invalid value for id: %s" err)
                    end
                  else ret None);;
    p <- client (ListWithContext (ListNetworks None (Zone_ID zone)));;
    match snd p with
    | Some err => fail (fmt_Errorf_wrap "networks listing failed: %s" err)
    | None =>
        resp <- assert_List (fst p);;
        network <- lift (dataSourceNetworkRead_loop byID networkID networkName
                                                    resp None);;
        match network with
        | None => fail (errors_New "network not found")
        | Some network =>
            id <- deref (Network_ID network);;
            modify_data (SetId (UUID_String id));;;
            d <- get_data;;
            set_checked "id" (VString (Id d));;;
            set_checked "name" (VString (Network_Name network));;;
            set_checked "description" (VString (Network_DisplayText network));;;
            match Network_StartIP network, Network_EndIP network,
                  Network_Netmask network with
            | Some startIP, Some endIP, Some netmask =>
                set_checked "start_ip" (VString (IP_String startIP));;;
                set_checked "end_ip" (VString (IP_String endIP));;;
                set_checked "netmask" (VString (IP_String netmask))
            | _, _, _ =>
                set_unchecked "start_ip" (VString "");;;
                set_unchecked "end_ip" (VString "");;;
                set_unchecked "netmask" (VString "")
            end
        end
    end.

(** ** datasource_exoscale_domain *)

Definition dataSourceDomainSchema : list (string * ValueType) :=
  [ ("name", TypeString) ].

(** The search loop of [dataSourceDomainRead]: the first item whose name is
    the queried one. *)
Fixpoint dataSourceDomainRead_loop (domainName : string)
    (domains : list DNSDomain) : Outcome (option DNSDomain) :=
  match domains with
  | [] => Ok None
  | item :: rest =>
      match Domain_UnicodeName item with
      | None => Panic nil_panic
      | Some name =>
          if String.eqb name domainName then Ok (Some item)
          else dataSourceDomainRead_loop domainName rest
      end
  end.

Definition dataSourceDomainRead : M unit :=
  tflog DEBUG "beginning read";;;
  d <- get_data;;
  let domainName := GetString d "name" in
  p <- client (ListDNSDomains defaultZone);;
  match snd p with
  | Some err => fail (fmt_Errorf_wrap "error retrieving domain list: %s" err)
  | None =>
      domains <- assert_Domains (fst p);;
      domain <- lift (dataSourceDomainRead_loop domainName domains);;
      match domain with
      | None => fail (fmt_Errorf "domain %q not found" [domainName])
      | Some domain =>
          id <- deref (Domain_ID domain);;
          modify_data (SetId id);;;
          name <- deref (Domain_UnicodeName domain);;
          set_checked "name" (VString name);;;
          tflog DEBUG "read finished successfully"
      end
  end.

(** ** resource_exoscale_affinity *)

Definition resourceAffinitySchema : list (string * ValueType) :=
  [ ("name", TypeString); ("description", TypeString); ("type", TypeString);
    ("virtual_machine_ids", TypeSet) ].

Definition resourceAffinityApply (affinity : AffinityGroup) : M unit :=
  set_checked "name" (VString (AG_Name affinity));;;
  set_checked "description" (VString (AG_Description affinity));;;
  set_checked "type" (VString (AG_Type affinity));;;
  let ids := UUID_String <$> AG_VirtualMachineIDs affinity in
  set_checked "virtual_machine_ids" (VSet (list_to_set ids)).

(** [&egoscale.AffinityGroup{ID: id}] *)
Definition AffinityGroup_byID (id : UUID) : AffinityGroup :=
  {| AG_ID := Some id; AG_Name := ""; AG_Description := ""; AG_Type := "";
     AG_VirtualMachineIDs := [] |}.

Definition resourceAffinityRead : M unit :=
  tflog DEBUG "beginning read";;;
  d <- get_data;;
  match ParseUUID (Id d) with
  | inl err => fail err
  | inr id =>
      p <- client (GetWithContext (AffinityGroup_byID id));;
      match snd p with
      | Some err => e <- handleNotFound err;; check e
      | None =>
          tflog DEBUG "read finished successfully";;;
          ag <- assert_AffinityGroup (fst p);;
          resourceAffinityApply ag
      end
  end.

Definition resourceAffinityCreate : M unit :=
  tflog DEBUG "beginning create";;;
  d <- get_data;;
  p <- client (RequestWithContext
                 (CreateAffinityGroup (GetString d "name")
                                      (GetString d "description")
                                      (GetString d "type")));;
  check (snd p);;;
  ag <- assert_AffinityGroup (fst p);;
  id <- deref (AG_ID ag);;
  modify_data (SetId (UUID_String id));;;
  tflog DEBUG "create finished successfully";;;
  resourceAffinityRead.


Definition resourceAffinityDelete : M unit :=
  tflog DEBUG "beginning delete";;;
  d <- get_data;;
  match ParseUUID (Id d) with
  | inl err => fail err
  | inr id =>
      p <- client (DeleteWithContext (AffinityGroup_byID id));;
      check (snd p);;;
      tflog DEBUG "delete finished successfully"
  end.

(** * The vocabulary of the properties *)

(** The record with attribute [key] set to [v]. *)
Definition with_attr (key : string) (v : Value) (d : ResourceData)
  : ResourceData :=
  {| rd_schema := rd_schema d; rd_id := rd_id d; rd_state := rd_state d;
     rd_attrs := <[key := v]> (rd_attrs d) |}.

(** The state with its record replaced. *)
Definition with_data (d : ResourceData) (st : State) : State :=
  {| data := d; remote := remote st; trace := trace st; logs := logs st |}.

(** The three range attributes as the reads write them: the remote values
    when the remote object has all three, the empty string otherwise. *)
Definition range_values (n : Network) : string * string * string :=
  match Network_StartIP n, Network_EndIP n, Network_Netmask n with
  | Some startIP, Some endIP, Some netmask =>
      (IP_String startIP, IP_String endIP, IP_String netmask)
  | _, _, _ => ("", "", "")
  end.

(** The record after [resourceNetworkApply] of a network whose ID is [id]. *)
Definition applied (n : Network) (id : UUID) (d : ResourceData)
  : ResourceData :=
  let '(s, e, m) := range_values n in
  {| rd_schema := rd_schema d;
     rd_id := UUID_String id;
     rd_state := rd_state d;
     rd_attrs :=
       <["tags" := VMap (tags_map (Network_Tags n))]>
       (<["netmask" := VString m]>
       (<["end_ip" := VString e]>
       (<["start_ip" := VString s]>
       (<["zone" := VString (Network_ZoneName n)]>
       (<["display_text" := VString (Network_DisplayText n)]>
       (<["name" := VString (Network_Name n)]> (rd_attrs d))))))) |}.

(** What one zone answers to the list-by-ID call, as far as the lookup's
    description goes: a parameter error, or a listing. *)
Inductive ZoneAnswer :=
| ParamErrorAnswer (text : string)
| Listing (r : ListNetworksResponse).

(** The reply of the client that carries the answer. *)
Definition answer_reply (a : ZoneAnswer) : Reply :=
  match a with
  | ParamErrorAnswer text => Reply_err (ErrorResponse ParamError text)
  | Listing r => Reply_ok (RNetworks r)
  end.

(** The lookup in the words of its description: go through the zones'
    answers in listing order, skip a zone that reports a parameter error,
    stop at the first zone whose response has at least one match and give
    that response; no response when no zone has a match. *)
Fixpoint first_match (answers : list ZoneAnswer)
  : option ListNetworksResponse :=
  match answers with
  | [] => None
  | ParamErrorAnswer _ :: rest => first_match rest
  | Listing r :: rest =>
      if (0 <? LNR_Count r)%Z then Some r else first_match rest
  end.

(** The answer is a response with at least one match. *)
Definition has_match (a : ZoneAnswer) : bool :=
  match a with
  | ParamErrorAnswer _ => false
  | Listing r => (0 <? LNR_Count r)%Z
  end.

(** The calls the description allows: one per zone, in listing order, up to
    and including the first zone that has a match. *)
Fixpoint lookup_events (id : UUID) (zones : list Zone)
    (answers : list ZoneAnswer) : list Event :=
  match zones, answers with
  | zone :: zones', a :: answers' =>
      (RequestWithContext (ListNetworks (Some id) (Zone_ID zone)),
       answer_reply a)
      :: (if has_match a then [] else lookup_events id zones' answers')
  | _, _ => []
  end.

(** The NotFound signal of the lookup when there is nothing to return. *)
Definition NotFound_or {A} (o : option A) : Outcome A :=
  match o with
  | Some a => Ok a
  | None => Err ErrNotFound
  end.

(** The state after one more log line. *)
Definition logged (lvl : Level) (msg : string) (st : State) : State :=
  {| data := data st; remote := remote st; trace := trace st;
     logs := logs st ++ [(lvl, msg)] |}.

(** The error is a typed API error response. *)
Definition is_ErrorResponse (e : error) : bool :=
  match e with ErrorResponse _ _ => true | _ => false end.

(** The three range attributes of a record mirror a network: all three hold
    the remote values, or all three are empty. *)
Definition range_all_or_none (n : Network) (d : ResourceData) : Prop :=
  (∃ startIP endIP netmask,
      Network_StartIP n = Some startIP ∧ Network_EndIP n = Some endIP
      ∧ Network_Netmask n = Some netmask
      ∧ rd_attrs d !! "start_ip" = Some (VString (IP_String startIP))
      ∧ rd_attrs d !! "end_ip" = Some (VString (IP_String endIP))
      ∧ rd_attrs d !! "netmask" = Some (VString (IP_String netmask)))
  ∨ (rd_attrs d !! "start_ip" = Some (VString "")
     ∧ rd_attrs d !! "end_ip" = Some (VString "")
     ∧ rd_attrs d !! "netmask" = Some (VString "")).

(** The state after call [c] was answered by [r], with [rest] still to
    come. *)
Definition called (c : Call) (r : Reply) (rest : list Reply) (st : State)
  : State :=
  {| data := data st; remote := rest; trace := trace st ++ [(c, r)];
     logs := logs st |}.

(** The record after a successful [dataSourceNetworkRead] that matched a
    network whose ID is [id]. *)
Definition ds_applied (n : Network) (id : UUID) (d : ResourceData)
  : ResourceData :=
  let '(s, e, m) := range_values n in
  {| rd_schema := rd_schema d;
     rd_id := UUID_String id;
     rd_state := rd_state d;
     rd_attrs :=
       <["netmask" := VString m]>
       (<["end_ip" := VString e]>
       (<["start_ip" := VString s]>
       (<["description" := VString (Network_DisplayText n)]>
       (<["name" := VString (Network_Name n)]>
       (<["id" := VString (UUID_String id)]> (rd_attrs d)))))) |}.

(** The ID criterion of a data-source read: [Some id] after a successful
    parse of a set "id" attribute, [None] when the attribute is not set. *)
Definition id_criterion (d : ResourceData) (networkID : option UUID) : Prop :=
  match networkID with
  | Some id => GetOk d "id" = true ∧ ParseUUID (GetString d "id") = inr id
  | None => GetOk d "id" = false
  end.

(** The change of [key] empties an attribute that had a value. *)
Definition cleared (d : ResourceData) (key : string) : Prop :=
  fst (GetChange d key) ≠ "" ∧ snd (GetChange d key) = "".

(** The error of [resourceNetworkUpdate] for a cleared attribute. *)
Definition recreate_error (key old : string) : error :=
  fmt_Errorf
    "[ERROR] new value of %q cannot be empty. old value was %s. The resource must be recreated instead"
    [key; old].

(** The first cross-field test of [resourceNetworkCreate] on the parsed
    range: one end of the range without the other. *)
Definition range_unpaired (d : ResourceData) : bool :=
  let startIP := ParseIP (GetString d "start_ip") in
  let endIP := ParseIP (GetString d "end_ip") in
  (isnil startIP && notnil endIP) || (notnil startIP && isnil endIP).

(** The second cross-field test: a range without a netmask. *)
Definition range_without_mask (d : ResourceData) : bool :=
  let startIP := ParseIP (GetString d "start_ip") in
  let endIP := ParseIP (GetString d "end_ip") in
  let netmask := ParseIP (GetString d "netmask") in
  (notnil startIP && notnil endIP) && isnil netmask.

(** The error [resourceNetworkCreate] returns for an inconsistent range. *)
Definition validation_error (d : ResourceData) : error :=
  if range_unpaired d
  then errors_New "start_ip and end_ip must be both specified"
  else errors_New "netmask must be specified with start_ip and end_ip".

(** The create request [resourceNetworkCreate] builds for zone [zone]. *)
Definition create_request (d : ResourceData) (zone : Zone) : Command :=
  let name := GetString d "name" in
  let displayText := GetString d "display_text" in
  CreateNetwork name
    (if String.eqb displayText "" then name else displayText)
    (Zone_ID zone)
    (ParseIP (GetString d "start_ip")) (ParseIP (GetString d "end_ip"))
    (ParseIP (GetString d "netmask")).

(** The zone listing [zones] resolves [zoneName] to [zone]. *)
Definition resolves (zones : list Zone) (zoneName : string) (zone : Zone)
  : Prop :=
  List.find (λ z, String.eqb (Zone_Name z) zoneName) zones = Some zone.

(** The log line of a failed cleanup. *)
Definition tag_failure_warning : LogEntry :=
  (WARN, "failure to create the tags, but the network was created").

(** The networks of a listing that carry the queried name. *)
Definition named (name : string) (nets : list Network) : list Network :=
  filter (λ n, Network_Name n = name) nets.

(** The error of [dataSourceNetworkRead] for a name that several networks
    carry. *)
Definition ambiguous_error (name : string) : error :=
  fmt_Errorf
    "found multiple networks named %q, please specify a unique ID instead"
    [name].

(** The domains of a listing that carry the queried name. *)
Definition domains_named (name : string) (domains : list DNSDomain)
  : list DNSDomain :=
  filter (λ d, Domain_UnicodeName d = Some name) domains.

(** The remote side honours the ID filter of a list call: a listing it
    returns for a queried ID holds only networks with that ID. *)
Definition honours_id_filter (evs : list Event) : Prop :=
  ∀ id zoneID r n,
    (RequestWithContext (ListNetworks (Some id) zoneID),
     Reply_ok (RNetworks r)) ∈ evs →
    n ∈ LNR_Network r →
    Network_ID n = Some id.

(** The record after [resourceAffinityApply]. *)
Definition affinity_applied (ag : AffinityGroup) (d : ResourceData)
  : ResourceData :=
  {| rd_schema := rd_schema d;
     rd_id := rd_id d;
     rd_state := rd_state d;
     rd_attrs :=
       <["virtual_machine_ids" :=
           VSet (list_to_set (UUID_String <$> AG_VirtualMachineIDs ag))]>
       (<["type" := VString (AG_Type ag)]>
       (<["description" := VString (AG_Description ag)]>
       (<["name" := VString (AG_Name ag)]> (rd_attrs d)))) |}.

(** What a Read of the group does to the record, by the reply to its Get
    call: the group's attributes, or the identifier cleared. *)
Definition affinity_read_effect (r : Reply) (d : ResourceData)
  : ResourceData :=
  match r with
  | Reply_ok (RAffinityGroup ag) => affinity_applied ag d
  | _ => SetId "" d
  end.

(** The state of a Read of the group once its Get call is answered. *)
Definition affinity_read_state (id : UUID) (r : Reply) (more : list Reply)
    (st : State) : State :=
  called (GetWithContext (AffinityGroup_byID id)) r more
         (logged DEBUG "beginning read" st).

(** The filter property as a test on the events. *)
Definition event_honours_id_filter (ev : Event) : bool :=
  match ev with
  | (RequestWithContext (ListNetworks (Some id) _), Reply_ok (RNetworks r)) =>
      forallb (λ n, bool_decide (Network_ID n = Some id)) (LNR_Network r)
  | _ => true
  end.

(** ** Frames of a run *)

(** Every run of [m] relates its start state to its end state by [P],
    however it ends. *)
Definition frames (P : State → State → Prop) {A} (m : M A) : Prop :=
  ∀ st, P st (snd (m st)).

(** The record is as it was. *)
Definition same_data (st st' : State) : Prop := data st' = data st.

(** The calls made are appended to the trace and none of them changes the
    remote side. *)
Definition only_reads (st st' : State) : Prop :=
  ∃ evs, trace st' = trace st ++ evs
         ∧ Forall (λ ev, mutating (fst ev) = false) evs.

(** On a record of schema [S], a run of [m] that does not return leaves the
    record as it was. *)
Definition fails_clean (S : list (string * ValueType)) {A} (m : M A) : Prop :=
  ∀ st, rd_schema (data st) = S →
        (∃ a, fst (m st) = Ok a) ∨ data (snd (m st)) = data st.

(** The attributes [resourceNetworkApply] writes. *)
Definition network_written : list string :=
  ["name"; "display_text"; "zone"; "start_ip"; "end_ip"; "netmask"; "tags"].

(** The value of the last tag of [tags] whose key is [k]. *)
Definition last_tag_value (tags : list ResourceTag) (k : string)
  : option string :=
  Tag_Value <$> last (filter (λ t, Tag_Key t = k) tags).

(** The update request [resourceNetworkUpdate] builds for ID [id]. *)
Definition update_request (d : ResourceData) (id : UUID) : Command :=
  UpdateNetwork (Some id) (GetString d "name") (GetString d "display_text")
                (ParseIP (GetString d "start_ip"))
                (ParseIP (GetString d "end_ip"))
                (ParseIP (GetString d "netmask")).

(** The events of requests that were each answered by a response. *)
Definition sent (requests : list Command) (resps : list Response)
  : list Event :=
  zip (RequestWithContext <$> requests) (Reply_ok <$> resps).

(** The networks of a listing that carry the wanted ID. *)
Definition with_id (want : UUID) (nets : list Network) : list Network :=
  filter (λ n, Network_ID n = Some want) nets.

(** The members a Read stores for an anti-affinity group. *)
Definition member_ids (ag : AffinityGroup) : gset string :=
  list_to_set (UUID_String <$> AG_VirtualMachineIDs ag).

End Provider.

(** * Concrete data

    A small UUID and IP library and stand-ins for the tag helpers, so that
    the callbacks can be evaluated on concrete records and remote replies. *)

(** Lower-case hexadecimal digits. *)
Definition is_hex (c : ascii) : bool :=
  let n := nat_of_ascii c in
  ((48 <=? n) && (n <=? 57) || (97 <=? n) && (n <=? 102))%nat.

(** The canonical textual form: 8-4-4-4-12 lower-case hex digits. *)
Fixpoint canonical_from (i : nat) (s : string) : bool :=
  match s with
  | EmptyString => (i =? 36)%nat
  | String c s' =>
      (if ((i =? 8) || (i =? 13) || (i =? 18) || (i =? 23))%nat
       then Ascii.eqb c "-" else is_hex c)
      && canonical_from (S i) s'
  end.

(** Dotted-quad IPv4 addresses. *)
Fixpoint ipv4_from (s : string) (cur : option nat) (dots : nat) : bool :=
  match s with
  | EmptyString =>
      match cur with
      | Some n => (n <=? 255)%nat && (dots =? 3)%nat
      | None => false
      end
  | String c s' =>
      let n := nat_of_ascii c in
      if Ascii.eqb c "." then
        match cur with
        | Some o => (o <=? 255)%nat && ipv4_from s' None (S dots)
        | None => false
        end
      else if ((48 <=? n) && (n <=? 57))%nat
      then ipv4_from s' (Some (10 * default 0 cur + (n - 48))%nat) dots
      else false
  end.

(** UUIDs and IPs as their text: the parser of UUIDs accepts the canonical
    form only, the parser of IPs dotted quads only. *)
Definition demo_ext : Externals := {|
  UUID := string;
  ParseUUID s := if canonical_from 0 s then inr s
                 else inl (fmt_Errorf "uuid: incorrect UUID format %s" [s]);
  UUID_String u := u;
  IP := string;
  ParseIP s := if ipv4_from s None 0 then Some s else None;
  IP_String ip := ip;
|}.

Section ConcreteData.
#[local] Existing Instance demo_ext.

(** The tags of attribute [key], as the tag commands carry them. *)
Definition demo_tags (d : ResourceData) (key : string) : list ResourceTag :=
  match rd_attrs d !! key with
  | Some (VMap m) => (λ kv, mkResourceTag kv.1 kv.2) <$> map_to_list m
  | _ => []
  end.

(** Tag helpers that build one CreateTags command for the tags of the
    record, and none when there are no tags. *)
Definition demo_helpers : Helpers := {|
  createTags d key resourceType :=
    match ParseUUID (Id d) with
    | inl err => inl err
    | inr id =>
        match demo_tags d key with
        | [] => inr None
        | tags => inr (Some (CreateTags [id] resourceType tags))
        end
    end;
  updateTags d key resourceType :=
    match ParseUUID (Id d) with
    | inl err => inl err
    | inr id =>
        match demo_tags d key with
        | [] => inr []
        | tags => inr [CreateTags [id] resourceType tags]
        end
    end;
  Network_ResourceType := "Network";
  defaultZone := "ch-gva-2";
|}.

#[local] Existing Instance demo_helpers.

Definition uuid1 : UUID := "5a9d0a4e-2f6b-4c1d-9e3a-0b1c2d3e4f50".
Definition uuid2 : UUID := "c0ffee00-1234-4abc-8def-000000000002".
Definition zoneA : Zone :=
  mkZone (Some "1128bd56-b4d9-4ac6-a7b9-c715b187ce11") "ch-gva-2".
Definition zoneB : Zone :=
  mkZone (Some "91e5e9e4-c9ed-4b76-bee4-427004b3baf9") "ch-dk-2".

Definition net1 : Network :=
  {| Network_ID := Some uuid1; Network_Name := "backend";
     Network_DisplayText := "backend network"; Network_ZoneName := "ch-gva-2";
     Network_StartIP := Some "10.0.0.10"; Network_EndIP := Some "10.0.0.50";
     Network_Netmask := Some "255.255.255.0";
     Network_Tags := [mkResourceTag "env" "prod"] |}.

(** A record of the network resource with identifier [id], prior state
    [old] and current attributes [new]. *)
Definition network_record (id : string) (old new : list (string * Value))
  : ResourceData :=
  {| rd_schema := resourceNetworkSchema; rd_id := id;
     rd_state := list_to_map old; rd_attrs := list_to_map new |}.

(** A callback is entered with nothing sent and nothing logged. *)
Definition start_state (d : ResourceData) (replies : list Reply) : State :=
  {| data := d; remote := replies; trace := []; logs := [] |}.

(** A record with no prior state. *)
Definition record (schema : list (string * ValueType)) (id : string)
    (new : list (string * Value)) : ResourceData :=
  {| rd_schema := schema; rd_id := id;
     rd_state := ∅; rd_attrs := list_to_map new |}.

Definition st_lookup : State :=
  start_state (network_record uuid1 [] [])
    [ Reply_ok (RZones [zoneA; zoneB]);
      Reply_err (ErrorResponse ParamError "zone not available");
      Reply_ok (RNetworks (mkListNetworksResponse 1 [net1])) ].

(** The list call of the only zone runs into a timeout. *)
Definition st_timeout : State :=
  start_state (network_record uuid1 [] [])
    [ Reply_ok (RZones [zoneA]);
      Reply_err (errors_New "context deadline exceeded") ].

Definition st_read : State :=
  start_state (network_record uuid1 [] [])
    [ Reply_ok (RZones [zoneA]);
      Reply_ok (RNetworks (mkListNetworksResponse 1 [net1])) ].

Definition net_unmanaged : Network :=
  {| Network_ID := Some uuid2; Network_Name := "frontend";
     Network_DisplayText := "frontend network"; Network_ZoneName := "ch-gva-2";
     Network_StartIP := None; Network_EndIP := None;
     Network_Netmask := Some "255.255.255.0";
     Network_Tags := [] |}.

Definition st_ds_by_name (name : string) (nets : list Network) : State :=
  start_state
    (record dataSourceNetworkSchema ""
       [("zone", VString "ch-gva-2"); ("name", VString name)])
    [ Reply_ok (RZones [zoneA; zoneB]);
      Reply_ok (RList (Item_Network <$> nets)) ].

Definition net1_twin : Network :=
  {| Network_ID := Some uuid2; Network_Name := "backend";
     Network_DisplayText := "another backend"; Network_ZoneName := "ch-gva-2";
     Network_StartIP := None; Network_EndIP := None; Network_Netmask := None;
     Network_Tags := [] |}.

Definition dom1 : DNSDomain :=
  mkDNSDomain (Some "89083a5c-b648-474a-0000-0000000a0001") (Some "example.net").
Definition dom2 : DNSDomain :=
  mkDNSDomain (Some "89083a5c-b648-474a-0000-0000000a0002") (Some "example.net").
Definition dom3 : DNSDomain :=
  mkDNSDomain (Some "89083a5c-b648-474a-0000-0000000a0003") (Some "example.org").

Definition st_domain (name : string) (domains : list DNSDomain) : State :=
  start_state (record dataSourceDomainSchema "" [("name", VString name)])
              [Reply_ok (RDomains domains)].

Definition st_unpaired (replies : list Reply) : State :=
  start_state
    (network_record "" []
       [("zone", VString "ch-gva-2"); ("name", VString "backend");
        ("start_ip", VString "10.0.0.10")])
    replies.

Definition st_tag_failure : State :=
  start_state
    (network_record "" []
       [("zone", VString "ch-gva-2"); ("name", VString "backend");
        ("tags", VMap {["env" := "prod"]})])
    [ Reply_ok (RZones [zoneA]);
      Reply_ok (RNetwork net1);
      Reply_err (ErrorResponse (OtherCode 530) "internal error");
      Reply_err (errors_New "context deadline exceeded") ].

Definition is_network_delete (c : Call) : bool :=
  match c with
  | BooleanRequestWithContext (DeleteNetwork _) => true
  | _ => false
  end.

Definition managed_attrs (name start_ip : string) : list (string * Value) :=
  [ ("zone", VString "ch-gva-2"); ("name", VString name);
    ("display_text", VString "backend network");
    ("start_ip", VString start_ip); ("end_ip", VString "10.0.0.50");
    ("netmask", VString "255.255.255.0") ].

(** The new configuration drops start_ip. *)
Definition st_clear : State :=
  start_state
    (network_record uuid1 (managed_attrs "backend" "10.0.0.10")
                          (managed_attrs "backend" ""))
    [ Reply_ok (RNetwork net1) ].

(** The new configuration renames the network. *)
Definition st_rename : State :=
  start_state
    (network_record uuid1 (managed_attrs "backend" "10.0.0.10")
                          (managed_attrs "backend-2" "10.0.0.10"))
    [ Reply_ok (RNetwork net1);
      Reply_ok (RZones [zoneA; zoneB]);
      Reply_err (ErrorResponse ParamError "zone not available");
      Reply_ok (RNetworks (mkListNetworksResponse 1 [net1])) ].



Definition affinity_record (id : string) : ResourceData :=
  record resourceAffinitySchema id
    [("name", VString "web"); ("description", VString "web servers");
     ("type", VString "host anti-affinity")].

Definition ag1 : AffinityGroup :=
  {| AG_ID := Some uuid1; AG_Name := "web"; AG_Description := "web servers";
     AG_Type := "host anti-affinity"; AG_VirtualMachineIDs := [uuid2] |}.

Definition st_create : State :=
  start_state
    (network_record "" [] (managed_attrs "backend" "10.0.0.10"))
    [ Reply_ok (RZones [zoneA]);
      Reply_ok (RNetwork net1);
      Reply_ok (RZones [zoneA; zoneB]);
      Reply_err (ErrorResponse ParamError "zone not available");
      Reply_ok (RNetworks (mkListNetworksResponse 1 [net1])) ].

Definition st_affinity_create : State :=
  start_state (affinity_record "")
    [ Reply_ok (RAffinityGroup ag1); Reply_ok (RAffinityGroup ag1) ].

(** A record whose identifier is no UUID, as an import of a mistyped
    identifier leaves it. *)
Definition st_bad_id : State :=
  start_state (network_record "my-network" [] []) [].

(** The network to delete is already gone. *)
Definition st_delete_absent : State :=
  start_state (network_record uuid1 [] [])
    [ Reply_err (ErrorResponse NotFound "entity does not exist") ].

Definition st_affinity_delete : State :=
  start_state (affinity_record uuid1) [ Reply_ok RNil ].

(** The second zone answers with an internal error. *)
Definition st_zone_error : State :=
  start_state (network_record uuid1 [] [])
    [ Reply_ok (RZones [zoneA; zoneB]);
      Reply_ok (RNetworks (mkListNetworksResponse 0 []));
      Reply_err (ErrorResponse (OtherCode 530) "internal error") ].

(** A response that counts one network and lists none. *)
Definition st_count_only : State :=
  start_state (network_record uuid1 [] [])
    [ Reply_ok (RZones [zoneA]);
      Reply_ok (RNetworks (mkListNetworksResponse 1 [])) ].

(** The configuration renames the network and carries a tag; the tag
    request fails. *)
Definition st_tag_update_fails : State :=
  start_state
    (network_record uuid1 (managed_attrs "backend" "10.0.0.10")
       (("tags", VMap {["env" := "prod"]})
        :: managed_attrs "backend-2" "10.0.0.10"))
    [ Reply_err (ErrorResponse (OtherCode 530) "internal error") ].

Definition st_create_fails : State :=
  start_state
    (network_record "" [] (managed_attrs "backend" "10.0.0.10"))
    [ Reply_ok (RZones [zoneA]);
      Reply_err (ErrorResponse (OtherCode 530) "internal error") ].

Definition odd_id : UUID := "net-1".

(** A network whose ID the tag helpers cannot parse. *)
Definition net_odd : Network :=
  {| Network_ID := Some odd_id; Network_Name := "backend";
     Network_DisplayText := "backend network"; Network_ZoneName := "ch-gva-2";
     Network_StartIP := None; Network_EndIP := None; Network_Netmask := None;
     Network_Tags := [] |}.

Definition st_create_odd : State :=
  start_state
    (network_record "" [] (managed_attrs "backend" "10.0.0.10"))
    [ Reply_ok (RZones [zoneA]); Reply_ok (RNetwork net_odd) ].

Definition st_ds_by_id (id : string) (nets : list Network) : State :=
  start_state
    (record dataSourceNetworkSchema ""
       [("zone", VString "ch-gva-2"); ("id", VString id)])
    [ Reply_ok (RZones [zoneA; zoneB]);
      Reply_ok (RList (Item_Network <$> nets)) ].

(** A network without a name. *)
Definition net_unnamed : Network :=
  {| Network_ID := Some uuid2; Network_Name := "";
     Network_DisplayText := ""; Network_ZoneName := "ch-gva-2";
     Network_StartIP := None; Network_EndIP := None; Network_Netmask := None;
     Network_Tags := [] |}.

Definition st_ds_no_criterion : State :=
  start_state
    (record dataSourceNetworkSchema "" [("zone", VString "ch-gva-2")])
    [ Reply_ok (RZones [zoneA]) ].

Definition st_ds_listing_fails : State :=
  start_state
    (record dataSourceNetworkSchema ""
       [("zone", VString "ch-gva-2"); ("name", VString "backend")])
    [ Reply_ok (RZones [zoneA]);
      Reply_err (errors_New "context deadline exceeded") ].

Definition st_affinity_read : State :=
  start_state (affinity_record uuid1) [ Reply_ok (RAffinityGroup ag1) ].

End ConcreteData.

(** * Properties *)

Section Properties.
Context `{Ext : Externals} `{Hlp : Helpers}.

(** ** Running the monad *)

Lemma bind_Ok {A B} (m : M A) (k : A → M B) st a st' :
  m st = (Ok a, st') → bind m k st = k a st'.
Proof. intros E. unfold bind. by rewrite E. Qed.

(** A successful bind splits into its two successful halves. *)
Lemma bind_Ok_inv {A B} (m : M A) (k : A → M B) st b st2 :
  bind m k st = (Ok b, st2) →
  ∃ a st1, m st = (Ok a, st1) ∧ k a st1 = (Ok b, st2).
Proof.
  unfold bind. destruct (m st) as [[a|e|msg] st1]; intros E; try discriminate.
  by exists a, st1.
Qed.

(** ** What a network read writes *)

Lemma resourceNetworkApply_ok n id st :
  rd_schema (data st) = resourceNetworkSchema →
  Network_ID n = Some id →
  resourceNetworkApply n st = (Ok tt, with_data (applied n id (data st)) st).
Proof.
  intros Hs Hid. destruct st as [d rs tr lg]. simpl in Hs.
  unfold resourceNetworkApply, applied, range_values. rewrite Hid.
  destruct (Network_StartIP n), (Network_EndIP n), (Network_Netmask n);
    unfold bind, deref, ret, modify_data, set_checked, set_unchecked, Set_,
           check, with_data, SetId; simpl; rewrite !Hs; simpl; reflexivity.
Qed.

(** ** The cross-zone lookup *)

Lemma client_step c st r rest :
  remote st = r :: rest →
  client c st =
    (Ok (go_pair r),
     {| data := data st; remote := rest;
        trace := trace st ++ [(c, r)]; logs := logs st |}).
Proof. intros E. unfold client. by rewrite E. Qed.

Lemma resourceNetworkFind_loop_answers id zones :
  ∀ answers more st,
    remote st = (answer_reply <$> answers) ++ more →
    length answers = length zones →
    let '(out, st') := resourceNetworkFind_loop id zones st in
    out = NotFound_or (first_match answers)
    ∧ trace st' = trace st ++ lookup_events id zones answers
    ∧ data st' = data st ∧ logs st' = logs st.
Proof.
  induction zones as [|zone zones IH]; intros answers more st Hr Hl.
  - destruct answers; [|done]. simpl. by rewrite app_nil_r.
  - destruct answers as [|a answers]; [done|].
    simpl in Hr, Hl. injection Hl as Hl.
    cbn [resourceNetworkFind_loop].
    rewrite (bind_Ok _ _ _ _ _ (client_step _ _ _ _ Hr)).
    destruct a as [text|r]; simpl.
    + match goal with
      | |- context [resourceNetworkFind_loop id zones ?s] =>
          specialize (IH answers more s eq_refl Hl);
          destruct (resourceNetworkFind_loop id zones s) as [out st']
      end.
      destruct IH as (-> & -> & -> & ->). simpl.
      by rewrite <- app_assoc.
    + unfold bind at 1. simpl.
      destruct (0 <? LNR_Count r)%Z; [done|].
      match goal with
      | |- context [resourceNetworkFind_loop id zones ?s] =>
          specialize (IH answers more s eq_refl Hl);
          destruct (resourceNetworkFind_loop id zones s) as [out st']
      end.
      destruct IH as (-> & -> & -> & ->). simpl.
      by rewrite <- app_assoc.
Qed.

(** Whatever the remote replies: a lookup that returns a response got it, with
    at least one match, as the reply to a list call for the queried ID, and
    left the record alone. *)
Lemma resourceNetworkFind_loop_Ok id zones :
  ∀ st r st',
    resourceNetworkFind_loop id zones st = (Ok r, st') →
    (0 < LNR_Count r)%Z ∧ data st' = data st ∧ logs st' = logs st
    ∧ ∃ evs zoneID,
        trace st' = trace st ++ evs
        ∧ (RequestWithContext (ListNetworks (Some id) zoneID),
           Reply_ok (RNetworks r)) ∈ evs.
Proof.
  induction zones as [|zone zones IH]; intros st r st' E; [done|].
  cbn [resourceNetworkFind_loop] in E.
  unfold bind at 1, client in E.
  destruct (next_reply (remote st)) as [r0 rest].
  set (ev := (RequestWithContext _, r0)) in E.
  set (st1 := {| data := data st; remote := rest; trace := trace st ++ [ev];
                 logs := logs st |}) in E.
  assert (Hrec : resourceNetworkFind_loop id zones st1 = (Ok r, st') →
    (0 < LNR_Count r)%Z ∧ data st' = data st ∧ logs st' = logs st
    ∧ ∃ evs zoneID,
        trace st' = trace st ++ evs
        ∧ (RequestWithContext (ListNetworks (Some id) zoneID),
           Reply_ok (RNetworks r)) ∈ evs).
  { intros E1. destruct (IH _ _ _ E1) as (Hc & Hd & Hl & evs & z & Ht & Hin).
    repeat split; try done. exists (ev :: evs), z. split.
    - rewrite Ht. subst st1; simpl. by rewrite <- app_assoc.
    - by right. }
  destruct r0 as [resp|e]; simpl in E.
  - destruct resp; simpl in E; try discriminate.
    unfold bind at 1 in E; simpl in E.
    destruct (0 <? LNR_Count r0)%Z eqn:Hc; [|by apply Hrec].
    injection E as -> <-. repeat split; try done.
    + by apply Z.ltb_lt.
    + exists [ev], (Zone_ID zone). split; [done|]. subst ev. by left.
  - destruct e as [code text| | | |]; simpl in E; try discriminate.
    repeat case_decide; try discriminate. by apply Hrec.
Qed.

Lemma resourceNetworkFind_unfold st :
  resourceNetworkFind st =
  match ParseUUID (Id (data st)) with
  | inl _ => (Panic "MustParseUUID", st)
  | inr id =>
      let '(r, rest) := next_reply (remote st) in
      let st1 := {| data := data st; remote := rest;
                    trace := trace st ++ [(RequestWithContext ListZones, r)];
                    logs := logs st |} in
      match r with
      | Reply_err e => (Err e, st1)
      | Reply_ok (RZones zones) => resourceNetworkFind_loop id zones st1
      | Reply_ok _ => (Panic conversion_panic, st1)
      end
  end.
Proof.
  unfold resourceNetworkFind, bind, get_data, client.
  destruct (ParseUUID _); [done|]. simpl.
  destruct (next_reply (remote st)) as [[resp|e] rest]; simpl; [|done].
  by destruct resp.
Qed.

Lemma resourceNetworkFind_answers st id zones answers more :
  ParseUUID (Id (data st)) = inr id →
  remote st = Reply_ok (RZones zones) :: (answer_reply <$> answers) ++ more →
  length answers = length zones →
  let '(out, st') := resourceNetworkFind st in
  out = NotFound_or (first_match answers)
  ∧ trace st' = trace st ++ (RequestWithContext ListZones, Reply_ok (RZones zones))
                         :: lookup_events id zones answers
  ∧ data st' = data st ∧ logs st' = logs st.
Proof.
  intros Hid Hr Hl. rewrite resourceNetworkFind_unfold, Hid, Hr. simpl.
  match goal with
  | |- context [resourceNetworkFind_loop id zones ?s] =>
      pose proof (resourceNetworkFind_loop_answers id zones answers more s
                    eq_refl Hl) as H;
      destruct (resourceNetworkFind_loop id zones s) as [out st']
  end.
  destruct H as (-> & -> & -> & ->). simpl.
  by rewrite <- app_assoc.
Qed.

Lemma resourceNetworkFind_Ok st r st' :
  resourceNetworkFind st = (Ok r, st') →
  ∃ id, ParseUUID (Id (data st)) = inr id
  ∧ (0 < LNR_Count r)%Z ∧ data st' = data st ∧ logs st' = logs st
  ∧ ∃ evs zoneID,
      trace st' = trace st ++ evs
      ∧ (RequestWithContext (ListNetworks (Some id) zoneID),
         Reply_ok (RNetworks r)) ∈ evs.
Proof.
  rewrite resourceNetworkFind_unfold.
  destruct (ParseUUID _) as [|id]; [done|].
  destruct (next_reply (remote st)) as [[resp|e] rest]; [|done].
  destruct resp; try done. intros E.
  apply resourceNetworkFind_loop_Ok in E
    as (Hc & Hd & Hl & evs & z & Ht & Hin).
  exists id. repeat split; try done.
  eexists (_ :: evs), z. split.
  - rewrite Ht. simpl. by rewrite <- app_assoc.
  - by right.
Qed.

(** ** Read and Exists of the network resource, in terms of the lookup *)

Lemma resourceNetworkRead_unfold st :
  resourceNetworkRead st =
  match resourceNetworkFind (logged DEBUG "beginning read" st) with
  | (Ok networks, st1) =>
      if (LNR_Count networks =? 0)%Z
      then (Err (fmt_Errorf "no network found for ID %s" [Id (data st1)]), st1)
      else match LNR_Network networks with
           | n :: _ =>
               resourceNetworkApply n
                 (logged DEBUG "read finished successfully" st1)
           | [] => (Panic index_panic, st1)
           end
  | (Err e, st1) => (Err e, st1)
  | (Panic msg, st1) => (Panic msg, st1)
  end.
Proof.
  unfold resourceNetworkRead. unfold bind at 1. simpl.
  fold (logged DEBUG "beginning read" st). unfold bind at 1.
  destruct (resourceNetworkFind _) as [[r|e|msg] st1]; try done.
  unfold bind at 1. simpl.
  destruct (LNR_Count r =? 0)%Z; [done|].
  destruct (LNR_Network r); done.
Qed.

Lemma resourceNetworkExists_unfold st :
  resourceNetworkExists st =
  match resourceNetworkFind st with
  | (Ok networks, st1) =>
      if (LNR_Count networks =? 0)%Z
      then (Ok (false, None), with_data (SetId "" (data st1)) st1)
      else (Ok (true, None), st1)
  | (Err e, st1) =>
      (Ok (false, if is_ErrNotFound e then None else Some e), st1)
  | (Panic msg, st1) => (Panic msg, st1)
  end.
Proof.
  unfold resourceNetworkExists, bind, try.
  destruct (resourceNetworkFind st) as [[r|e|msg] st1]; try done.
  - by destruct (LNR_Count r =? 0)%Z.
  - by destruct (is_ErrNotFound e).
Qed.

(** C5: a Read of a network by identifier looks the network up zone by zone
    in listing order; a zone whose list call reports a parameter error is
    skipped; the lookup stops at the first zone whose response has at least
    one match and returns that response (no later zone is asked); when no
    zone has a match the lookup returns the NotFound signal, and so does
    Read. *)
Theorem lookup_searches_zones_in_listing_order st id zones answers more :
  ParseUUID (Id (data st)) = inr id →
  remote st = Reply_ok (RZones zones) :: (answer_reply <$> answers) ++ more →
  length answers = length zones →
  fst (resourceNetworkFind st) = NotFound_or (first_match answers)
  ∧ trace (snd (resourceNetworkFind st))
    = trace st ++ (RequestWithContext ListZones, Reply_ok (RZones zones))
               :: lookup_events id zones answers
  ∧ data (snd (resourceNetworkFind st)) = data st
  ∧ (first_match answers = None →
     fst (resourceNetworkRead st) = Err ErrNotFound).
Proof.
  intros Hid Hr Hl.
  pose proof (resourceNetworkFind_answers st id zones answers more Hid Hr Hl)
    as H.
  destruct (resourceNetworkFind st) as [out st']. simpl.
  destruct H as (-> & -> & -> & _). repeat split; try done.
  intros Hnone. rewrite resourceNetworkRead_unfold.
  pose proof (resourceNetworkFind_answers
                (logged DEBUG "beginning read" st) id zones answers more
                Hid Hr Hl) as H.
  destruct (resourceNetworkFind _) as [out1 st1].
  destruct H as (-> & _). by rewrite Hnone.
Qed.

(** C9: what the lookup does when a zone's list call fails with an error
    that is no typed API error response: neither branch of the error test
    is taken, and the type assertion on the nil response panics. *)
Theorem lookup_untyped_error_panics st id zone zones e more :
  ParseUUID (Id (data st)) = inr id →
  remote st = Reply_ok (RZones (zone :: zones)) :: Reply_err e :: more →
  is_ErrorResponse e = false →
  fst (resourceNetworkFind st) = Panic conversion_panic.
Proof.
  intros Hid Hr He. rewrite resourceNetworkFind_unfold, Hid, Hr. simpl.
  unfold bind, client. simpl. by destruct e.
Qed.

(** A successful Read of the resource found a response whose first network
    carries an ID, and leaves the record as [applied] describes. *)
Lemma resourceNetworkRead_Ok st st' :
  rd_schema (data st) = resourceNetworkSchema →
  resourceNetworkRead st = (Ok tt, st') →
  ∃ r n rest id st1,
    resourceNetworkFind (logged DEBUG "beginning read" st) = (Ok r, st1)
    ∧ LNR_Network r = n :: rest
    ∧ Network_ID n = Some id
    ∧ st' = with_data (applied n id (data st))
                      (logged DEBUG "read finished successfully" st1).
Proof.
  intros Hs. rewrite resourceNetworkRead_unfold.
  destruct (resourceNetworkFind _) as [[r|e|msg] st1] eqn:EF; try done.
  destruct (LNR_Count r =? 0)%Z; [done|].
  destruct (LNR_Network r) as [|n rest] eqn:EN; [done|].
  apply resourceNetworkFind_Ok in EF as HF.
  destruct HF as (id0 & _ & _ & Hd & _). simpl in Hd.
  destruct (Network_ID n) as [id|] eqn:Eid.
  - rewrite (resourceNetworkApply_ok n id); [|by simpl; rewrite Hd|done].
    intros [= <-]. exists r, n, rest, id, st1. repeat split; try done.
    simpl. by rewrite Hd.
  - unfold resourceNetworkApply. rewrite Eid. done.
Qed.

Lemma applied_range n id d :
  let '(s, e, m) := range_values n in
  rd_attrs (applied n id d) !! "start_ip" = Some (VString s)
  ∧ rd_attrs (applied n id d) !! "end_ip" = Some (VString e)
  ∧ rd_attrs (applied n id d) !! "netmask" = Some (VString m).
Proof.
  unfold applied. destruct (range_values n) as [[s e] m]. simpl.
  repeat split; by simplify_map_eq.
Qed.

Lemma range_values_all_or_none n d :
  (let '(s, e, m) := range_values n in
   rd_attrs d !! "start_ip" = Some (VString s)
   ∧ rd_attrs d !! "end_ip" = Some (VString e)
   ∧ rd_attrs d !! "netmask" = Some (VString m)) →
  range_all_or_none n d.
Proof.
  unfold range_values, range_all_or_none.
  destruct (Network_StartIP n) as [s|], (Network_EndIP n) as [e|],
           (Network_Netmask n) as [m|]; intros (? & ? & ?);
    try (by right).
  left. by exists s, e, m.
Qed.

(** ** Zone resolution *)

Lemma getZoneByName_unfold zoneName st :
  getZoneByName zoneName st =
  let '(r, rest) := next_reply (remote st) in
  let st1 := called (RequestWithContext ListZones) r rest st in
  match r with
  | Reply_err e => (Err e, st1)
  | Reply_ok (RZones zones) =>
      match List.find (λ z, String.eqb (Zone_Name z) zoneName) zones with
      | Some zone => (Ok zone, st1)
      | None => (Err ErrNotFound, st1)
      end
  | Reply_ok _ => (Panic conversion_panic, st1)
  end.
Proof.
  unfold getZoneByName, bind, client, called.
  destruct (next_reply (remote st)) as [[resp|e] rest]; simpl; [|done].
  destruct resp; try done. simpl. by destruct (List.find _ _).
Qed.

(** ** The network data source *)

Lemma dataSourceNetworkRead_loop_Ok byID networkID networkName resp :
  ∀ network n,
    dataSourceNetworkRead_loop byID networkID networkName resp network
    = Ok (Some n) →
    network = Some n ∨ Item_Network n ∈ resp.
Proof.
  induction resp as [|v resp IH]; intros network n E; simpl in E.
  - left. congruence.
  - destruct v as [net|]; [|done].
    assert (Hname :
      (if String.eqb (Network_Name net) networkName
       then match network with
            | Some _ =>
                Err (fmt_Errorf
                  "found multiple networks named %q, please specify a unique ID instead"
                  [Network_Name net])
            | None => dataSourceNetworkRead_loop byID networkID networkName
                        resp (Some net)
            end
       else dataSourceNetworkRead_loop byID networkID networkName resp
              network) = Ok (Some n) →
      network = Some n ∨ Item_Network n ∈ Item_Network net :: resp).
    { destruct (String.eqb _ _).
      - destruct network; [done|]. intros E1.
        destruct (IH _ _ E1) as [[= ->]|Hin]; right; [by left|by right].
      - intros E1. destruct (IH _ _ E1) as [->|Hin]; [by left|].
        right. by right. }
    destruct byID; [|by apply Hname].
    destruct networkID as [want|]; [|done].
    destruct (Network_ID net) as [have|]; [|done].
    case_decide; [|by apply Hname].
    injection E as ->. right. by left.
Qed.

Lemma ds_applied_range n id d :
  let '(s, e, m) := range_values n in
  rd_attrs (ds_applied n id d) !! "start_ip" = Some (VString s)
  ∧ rd_attrs (ds_applied n id d) !! "end_ip" = Some (VString e)
  ∧ rd_attrs (ds_applied n id d) !! "netmask" = Some (VString m).
Proof.
  unfold ds_applied. destruct (range_values n) as [[s e] m]. simpl.
  repeat split; by simplify_map_eq.
Qed.

(** [dataSourceNetworkRead] once the zone is resolved and the listing has
    arrived. *)
Lemma dataSourceNetworkRead_listed st zones zone items more networkID :
  rd_schema (data st) = dataSourceNetworkSchema →
  remote st = Reply_ok (RZones zones) :: Reply_ok (RList items) :: more →
  List.find (λ z, String.eqb (Zone_Name z) (GetString (data st) "zone")) zones
  = Some zone →
  (GetOk (data st) "name" = true ∨ GetOk (data st) "id" = true) →
  id_criterion (data st) networkID →
  let st2 :=
    called (ListWithContext (ListNetworks None (Zone_ID zone)))
           (Reply_ok (RList items)) more
      (called (RequestWithContext ListZones) (Reply_ok (RZones zones))
              (Reply_ok (RList items) :: more) st) in
  dataSourceNetworkRead st =
  match dataSourceNetworkRead_loop (GetOk (data st) "id") networkID
          (if GetOk (data st) "name" then GetString (data st) "name" else "")
          items None with
  | Ok None => (Err (errors_New "network not found"), st2)
  | Ok (Some n) =>
      match Network_ID n with
      | Some id => (Ok tt, with_data (ds_applied n id (data st)) st2)
      | None => (Panic nil_panic, st2)
      end
  | Err e => (Err e, st2)
  | Panic msg => (Panic msg, st2)
  end.
Proof.
  intros Hs Hr Hz Hby Hid. destruct st as [d rs tr lg].
  cbn [data remote trace logs] in *. subst rs.
  unfold dataSourceNetworkRead. unfold bind at 1. simpl.
  unfold bind at 1. rewrite getZoneByName_unfold. simpl. rewrite Hz.
  assert (negb (GetOk d "name") && negb (GetOk d "id") = false) as ->.
  { destruct Hby as [H|H]; rewrite H; [done|apply andb_false_r]. }
  assert (Hpid :
    (if GetOk d "id"
     then match ParseUUID (GetString d "id") with
          | inr id => ret (Some id)
          | inl err => fail (fmt_Errorf_wrap "invalid value for id: %s" err)
          end
     else ret None)
    = ret networkID).
  { destruct networkID as [id|]; simpl in Hid.
    - destruct Hid as [-> ->]. done.
    - by rewrite Hid. }
  rewrite Hpid. unfold bind at 1. simpl. unfold bind at 1, client. simpl.
  unfold bind at 1. simpl. unfold bind at 1, lift. simpl. unfold called. simpl.
  destruct (dataSourceNetworkRead_loop _ _ _ _ _) as [[n|]|e|msg]; try done.
  destruct (Network_ID n) as [id|]; [|done].
  unfold ds_applied, range_values.
  destruct (Network_StartIP n), (Network_EndIP n), (Network_Netmask n);
    unfold bind, deref, ret, modify_data, get_data, set_checked,
           set_unchecked, Set_, check, with_data, SetId, Id; simpl;
    rewrite !Hs; simpl; reflexivity.
Qed.

(** A successful [dataSourceNetworkRead] ran against a zone listing that
    resolved the zone and a network listing. *)
Lemma dataSourceNetworkRead_Ok_shape st st' :
  dataSourceNetworkRead st = (Ok tt, st') →
  ∃ zones zone items more networkID,
    remote st = Reply_ok (RZones zones) :: Reply_ok (RList items) :: more
    ∧ List.find (λ z, String.eqb (Zone_Name z) (GetString (data st) "zone"))
                zones = Some zone
    ∧ (GetOk (data st) "name" = true ∨ GetOk (data st) "id" = true)
    ∧ id_criterion (data st) networkID.
Proof.
  intros E. destruct st as [d rs tr lg]. cbn [data remote].
  unfold dataSourceNetworkRead in E. unfold bind at 1 in E. simpl in E.
  unfold bind at 1 in E. rewrite getZoneByName_unfold in E. simpl in E.
  destruct rs as [|[resp|e] rs]; simpl in E; try done.
  destruct resp as [|zones| | | | |]; try done.
  destruct (List.find _ zones) as [zone|] eqn:Hz; [|done].
  destruct (negb (GetOk d "name") && negb (GetOk d "id")) eqn:Hby; [done|].
  assert (Hby' : GetOk d "name" = true ∨ GetOk d "id" = true).
  { destruct (GetOk d "name"); [by left|]. destruct (GetOk d "id"); [by right|].
    done. }
  unfold bind at 1 in E.
  destruct (GetOk d "id") eqn:Hbid.
  - destruct (ParseUUID (GetString d "id")) as [err|id] eqn:Hp; [done|].
    simpl in E. unfold bind at 1, client in E. simpl in E.
    destruct rs as [|[resp|e] rs]; simpl in E; try done.
    destruct resp as [| | | | |items|]; simpl in E; try done.
    by exists zones, zone, items, rs, (Some id).
  - simpl in E. unfold bind at 1, client in E. simpl in E.
    destruct rs as [|[resp|e] rs]; simpl in E; try done.
    destruct resp as [| | | | |items|]; simpl in E; try done.
    by exists zones, zone, items, rs, None.
Qed.

(** C10: after a successful Read that maps a network onto the record, by the
    resource or by the data source, start_ip, end_ip and netmask are either
    all three the values of the remote network that was found, or all three
    the empty string. *)
Theorem network_reads_set_range_all_or_none :
  (∀ st st',
     rd_schema (data st) = resourceNetworkSchema →
     resourceNetworkRead st = (Ok tt, st') →
     ∃ id zoneID r n,
       (RequestWithContext (ListNetworks (Some id) zoneID),
        Reply_ok (RNetworks r)) ∈ trace st'
       ∧ head (LNR_Network r) = Some n
       ∧ range_all_or_none n (data st'))
  ∧ (∀ st st',
       rd_schema (data st) = dataSourceNetworkSchema →
       dataSourceNetworkRead st = (Ok tt, st') →
       ∃ zoneID items n,
         (ListWithContext (ListNetworks None zoneID), Reply_ok (RList items))
           ∈ trace st'
         ∧ Item_Network n ∈ items
         ∧ range_all_or_none n (data st')).
Proof.
  split.
  - intros st st' Hs E.
    destruct (resourceNetworkRead_Ok st st' Hs E)
      as (r & n & rest & nid & st1 & EF & EN & Eid & ->).
    apply resourceNetworkFind_Ok in EF
      as (id & _ & _ & _ & _ & evs & zoneID & Ht & Hin).
    exists id, zoneID, r, n. split; [|split].
    + simpl. rewrite Ht. apply elem_of_app. by right.
    + by rewrite EN.
    + apply range_values_all_or_none. apply applied_range.
  - intros st st' Hs E.
    destruct (dataSourceNetworkRead_Ok_shape st st' E)
      as (zones & zone & items & more & networkID & Hr & Hz & Hby & Hid).
    rewrite (dataSourceNetworkRead_listed st zones zone items more networkID
               Hs Hr Hz Hby Hid) in E.
    destruct (dataSourceNetworkRead_loop _ _ _ _ _) as [[n|]|e|msg] eqn:EL;
      try done.
    destruct (Network_ID n) as [id|]; [|done].
    injection E as <-.
    apply dataSourceNetworkRead_loop_Ok in EL as [?|Hin]; [done|].
    exists (Zone_ID zone), items, n. split; [|split].
    + simpl. apply elem_of_app. right. by left.
    + done.
    + apply range_values_all_or_none. apply ds_applied_range.
Qed.

(** ** Exists *)




(** ** Update of the network resource *)

Lemma cleared_HasChange d key : cleared d key → HasChange d key = true.
Proof.
  unfold cleared, HasChange. destruct (GetChange d key) as [o n]. simpl.
  intros [Ho ->]. apply negb_true_iff. by apply String.eqb_neq.
Qed.

Lemma cleared_test d key :
  cleared d key →
  negb (String.eqb (fst (GetChange d key)) "")
  && String.eqb (snd (GetChange d key)) "" = true.
Proof.
  intros [Ho Hn]. rewrite Hn. simpl. rewrite andb_true_r.
  apply negb_true_iff. by apply String.eqb_neq.
Qed.

(** C3: an Update of a network in which start_ip or end_ip had a value and
    the new value is empty fails, and it fails before anything is sent: no
    call is made (so no update and no tag request), no reply is consumed
    and the record is as it was; only the opening debug line is logged.
    The error is the one that asks for the resource to be recreated, naming
    the first such attribute; the one record this would not hold for, a
    record whose identifier is no UUID, fails in the same way with the
    parser's error. *)
Theorem update_rejects_clearing_range st :
  cleared (data st) "start_ip" ∨ cleared (data st) "end_ip" →
  ∃ e,
    resourceNetworkUpdate st = (Err e, logged DEBUG "beginning update" st)
    ∧ ∀ id,
        ParseUUID (Id (data st)) = inr id →
        ∃ key,
          (key = "start_ip" ∨ key = "end_ip")
          ∧ cleared (data st) key
          ∧ e = recreate_error key (fst (GetChange (data st) key)).
Proof.
  intros Hc.
  assert (Hhas : HasChange (data st) "start_ip"
                 || HasChange (data st) "end_ip" = true).
  { destruct Hc as [H|H]; apply cleared_HasChange in H; rewrite H;
      [done|apply orb_true_r]. }
  unfold resourceNetworkUpdate. unfold bind at 1. simpl.
  fold (logged DEBUG "beginning update" st).
  unfold bind at 1. simpl.
  destruct (ParseUUID (Id (data st))) as [err|id0].
  { exists err. split; [done|]. by intros id. }
  unfold bind at 1. rewrite Hhas.
  cbn [check_not_cleared]. unfold cleared.
  cbn [GetChange fst snd] in *.
  match goal with
  | |- context [if ?b then fail _ else _] => destruct b eqn:T1
  end.
  - eexists. split; [done|]. intros id _.
    exists "start_ip". split; [by left|]. split; [|done].
    apply andb_true_iff in T1 as [To Tn]. apply negb_true_iff in To.
    split; [by apply String.eqb_neq|by apply String.eqb_eq].
  - destruct Hc as [H|H].
    + pose proof (cleared_test _ _ H) as T. cbn [GetChange fst snd] in T.
      congruence.
    + pose proof (cleared_test _ _ H) as T. cbn [GetChange fst snd] in T.
      rewrite T. eexists. split; [done|]. intros id _.
      exists "end_ip". split; [by right|]. by split.
Qed.

(** ** Create of the network resource *)

Lemma resourceNetworkCreate_invalid st zones zone more :
  remote st = Reply_ok (RZones zones) :: more →
  resolves zones (GetString (data st) "zone") zone →
  range_unpaired (data st) || range_without_mask (data st) = true →
  resourceNetworkCreate st
  = (Err (validation_error (data st)),
     called (RequestWithContext ListZones) (Reply_ok (RZones zones)) more
            (logged DEBUG "beginning create" st)).
Proof.
  intros Hr Hz Hbad. unfold resourceNetworkCreate.
  unfold bind at 1. simpl. unfold bind at 1. simpl. unfold bind at 1.
  rewrite getZoneByName_unfold. simpl. rewrite Hr. simpl.
  unfold resolves in Hz. rewrite Hz.
  unfold validation_error. unfold range_unpaired, range_without_mask in *.
  cbv zeta in *.
  match goal with
  | |- context [if ?b then fail _ else _] => destruct b eqn:T1
  end; simpl; [done|].
  simpl in Hbad. by rewrite Hbad.
Qed.

(** C2 (as the code has it): a Create whose range attributes are
    inconsistent (one of start_ip and end_ip without the other, or both
    without a netmask) first resolves the zone, which is a call to the
    remote side, and reports the validation error only once that call has
    succeeded; the zone listing is the only call made, nothing is created
    or changed remotely, and the record is as it was. *)
Theorem create_validates_after_zone_resolution st zones zone more :
  remote st = Reply_ok (RZones zones) :: more →
  resolves zones (GetString (data st) "zone") zone →
  range_unpaired (data st) || range_without_mask (data st) = true →
  let st' := snd (resourceNetworkCreate st) in
  fst (resourceNetworkCreate st) = Err (validation_error (data st))
  ∧ trace st'
    = trace st ++ [(RequestWithContext ListZones, Reply_ok (RZones zones))]
  ∧ Forall (λ ev, mutating (fst ev) = false)
           (drop (length (trace st)) (trace st'))
  ∧ data st' = data st.
Proof.
  intros Hr Hz Hbad.
  rewrite (resourceNetworkCreate_invalid st zones zone more Hr Hz Hbad).
  simpl. repeat split; try done.
  rewrite drop_app_length. by repeat constructor.
Qed.

Lemma resourceNetworkCreate_tag_failure st zones zone n id cmd err more :
  remote st
  = Reply_ok (RZones zones) :: Reply_ok (RNetwork n) :: Reply_err err :: more →
  resolves zones (GetString (data st) "zone") zone →
  range_unpaired (data st) || range_without_mask (data st) = false →
  Network_ID n = Some id →
  createTags (SetId (UUID_String id) (data st)) "tags" Network_ResourceType
  = inr (Some cmd) →
  resourceNetworkCreate st
  = (Err err,
     {| data := SetId (UUID_String id) (data st);
        remote := snd (next_reply more);
        trace := trace st ++
          [ (RequestWithContext ListZones, Reply_ok (RZones zones));
            (RequestWithContext (create_request (data st) zone),
             Reply_ok (RNetwork n));
            (BooleanRequestWithContext cmd, Reply_err err);
            (BooleanRequestWithContext (DeleteNetwork (Some id)),
             fst (next_reply more)) ];
        logs := logs st ++ (DEBUG, "beginning create")
                :: match fst (next_reply more) with
                   | Reply_err _ => [tag_failure_warning]
                   | Reply_ok _ => []
                   end |}).
Proof.
  intros Hr Hz Hgood Hid Htags. unfold resourceNetworkCreate.
  unfold bind at 1. simpl. unfold bind at 1. simpl. unfold bind at 1.
  rewrite getZoneByName_unfold. simpl. rewrite Hr. simpl.
  unfold resolves in Hz. rewrite Hz.
  apply orb_false_iff in Hgood as [H1 H2].
  unfold range_unpaired, range_without_mask in H1, H2. cbv zeta in H1, H2.
  rewrite H1, H2.
  unfold bind at 1, client. simpl.
  unfold bind at 1. simpl. unfold bind at 1. simpl.
  unfold bind at 1. rewrite Hid. simpl.
  unfold bind at 1. simpl. unfold bind at 1.
  unfold bind at 1. simpl. unfold SetId in Htags. unfold SetId.
  rewrite Htags.
  unfold bind at 1, client_bool. unfold bind at 1, client. simpl.
  unfold bind at 1. unfold bind at 1, client. simpl.
  destruct (next_reply more) as [cleanup rest]. simpl.
  unfold create_request, tag_failure_warning.
  destruct cleanup as [resp|e]; simpl; by rewrite <- !app_assoc.
Qed.

(** C4: a Create whose create request succeeds and whose tag request fails
    sends exactly one delete for the network just created, whatever the
    delete answers, and returns the error of the tag request; a failed
    delete only adds a warning to the log. *)
Theorem create_cleans_up_after_tag_failure
    st zones zone n id cmd err more :
  remote st
  = Reply_ok (RZones zones) :: Reply_ok (RNetwork n) :: Reply_err err :: more →
  resolves zones (GetString (data st) "zone") zone →
  range_unpaired (data st) || range_without_mask (data st) = false →
  Network_ID n = Some id →
  createTags (SetId (UUID_String id) (data st)) "tags" Network_ResourceType
  = inr (Some cmd) →
  let cleanup := fst (next_reply more) in
  let st' := snd (resourceNetworkCreate st) in
  fst (resourceNetworkCreate st) = Err err
  ∧ trace st'
    = trace st ++
      [ (RequestWithContext ListZones, Reply_ok (RZones zones));
        (RequestWithContext (create_request (data st) zone),
         Reply_ok (RNetwork n));
        (BooleanRequestWithContext cmd, Reply_err err);
        (BooleanRequestWithContext (DeleteNetwork (Some id)), cleanup) ]
  ∧ logs st'
    = logs st ++ (DEBUG, "beginning create")
      :: match cleanup with
         | Reply_err _ => [tag_failure_warning]
         | Reply_ok _ => []
         end.
Proof.
  intros Hr Hz Hgood Hid Htags.
  by rewrite (resourceNetworkCreate_tag_failure st zones zone n id cmd err
                more Hr Hz Hgood Hid Htags).
Qed.

(** ** Lookup by name *)

Lemma dataSourceNetworkRead_loop_by_name networkID name nets :
  ∀ network,
    dataSourceNetworkRead_loop false networkID name (Item_Network <$> nets)
                               network
    = match network, named name nets with
      | _, [] => Ok network
      | None, [n] => Ok (Some n)
      | _, _ => Err (ambiguous_error name)
      end.
Proof.
  induction nets as [|net nets IH]; intros network; simpl.
  - by destruct network.
  - unfold named. rewrite filter_cons.
    destruct (String.eqb_spec (Network_Name net) name) as [Heq|Hne].
    + rewrite decide_True by done.
      destruct network as [a|]; [by rewrite Heq|].
      rewrite IH. fold (named name nets). by destruct (named name nets).
    + rewrite decide_False by done. apply IH.
Qed.

Lemma dataSourceDomainRead_loop_first name domains :
  Forall (λ d, is_Some (Domain_UnicodeName d)) domains →
  dataSourceDomainRead_loop name domains
  = Ok (head (domains_named name domains)).
Proof.
  induction 1 as [|item domains [uname Hu] _ IH]; [done|].
  simpl. unfold domains_named. rewrite filter_cons, Hu.
  destruct (String.eqb_spec uname name) as [->|Hne].
  - by rewrite decide_True.
  - rewrite decide_False by congruence. apply IH.
Qed.

Lemma dataSourceDomainRead_listed st domains more :
  rd_schema (data st) = dataSourceDomainSchema →
  remote st = Reply_ok (RDomains domains) :: more →
  Forall (λ d, is_Some (Domain_UnicodeName d)) domains →
  let name := GetString (data st) "name" in
  let st1 := called (ListDNSDomains defaultZone) (Reply_ok (RDomains domains))
                    more (logged DEBUG "beginning read" st) in
  dataSourceDomainRead st =
  match head (domains_named name domains) with
  | None => (Err (fmt_Errorf "domain %q not found" [name]), st1)
  | Some domain =>
      match Domain_ID domain with
      | None => (Panic nil_panic, st1)
      | Some id =>
          (Ok tt,
           logged DEBUG "read finished successfully"
             (with_data (with_attr "name" (VString name)
                           (SetId id (data st))) st1))
      end
  end.
Proof.
  intros Hs Hr Hall. destruct st as [d rs tr lg].
  cbn [data remote trace logs] in *. subst rs.
  unfold dataSourceDomainRead. unfold bind at 1. simpl.
  unfold bind at 1. simpl. unfold bind at 1, client. simpl.
  unfold bind at 1. simpl. unfold bind at 1, lift.
  rewrite (dataSourceDomainRead_loop_first _ _ Hall).
  destruct (head _) as [domain|] eqn:Eh; [|done].
  destruct (Domain_ID domain) as [id|]; [|done]. simpl.
  assert (Hn : Domain_UnicodeName domain = Some (GetString d "name")).
  { apply head_Some_elem_of in Eh. unfold domains_named in Eh.
    by apply list_elem_of_filter in Eh as [? _]. }
  rewrite Hn. unfold bind, deref, ret, modify_data, set_checked, Set_, check,
    tflog, logged, called, with_data, with_attr, SetId. simpl.
  rewrite Hs. simpl. done.
Qed.

(** C1 (as the code has it): lookup by name.  The network data source,
    queried by name: with no network of that name in the zone it fails with
    a not-found error; with exactly one it succeeds and sets the record from
    that network; with more than one it fails with the error that asks for a
    unique ID.  The domain data source: with no domain of that name it fails
    with a not-found error; with one or more it succeeds and sets the record
    from the first one in listing order. *)
Theorem lookup_by_name_outcomes :
  (∀ st zones zone nets more,
     rd_schema (data st) = dataSourceNetworkSchema →
     remote st = Reply_ok (RZones zones)
                 :: Reply_ok (RList (Item_Network <$> nets)) :: more →
     resolves zones (GetString (data st) "zone") zone →
     GetOk (data st) "name" = true →
     GetOk (data st) "id" = false →
     let matches := named (GetString (data st) "name") nets in
     (matches = [] →
        fst (dataSourceNetworkRead st) = Err (errors_New "network not found"))
     ∧ (∀ n id, matches = [n] → Network_ID n = Some id →
          fst (dataSourceNetworkRead st) = Ok tt
          ∧ data (snd (dataSourceNetworkRead st))
            = ds_applied n id (data st))
     ∧ (1 < length matches →
          fst (dataSourceNetworkRead st)
          = Err (ambiguous_error (GetString (data st) "name"))))
  ∧ (∀ st domains more,
       rd_schema (data st) = dataSourceDomainSchema →
       remote st = Reply_ok (RDomains domains) :: more →
       Forall (λ d, is_Some (Domain_UnicodeName d)) domains →
       let name := GetString (data st) "name" in
       let matches := domains_named name domains in
       (matches = [] →
          fst (dataSourceDomainRead st)
          = Err (fmt_Errorf "domain %q not found" [name]))
       ∧ (∀ domain rest id, matches = domain :: rest →
            Domain_ID domain = Some id →
            fst (dataSourceDomainRead st) = Ok tt
            ∧ Id (data (snd (dataSourceDomainRead st))) = id
            ∧ GetString (data (snd (dataSourceDomainRead st))) "name" = name)).
Proof.
  split.
  - intros st zones zone nets more Hs Hr Hz Hname Hid matches.
    assert (Hcrit : id_criterion (data st) None) by done.
    rewrite (dataSourceNetworkRead_listed st zones zone _ more None
               Hs Hr Hz (or_introl Hname) Hcrit).
    rewrite Hid, Hname, dataSourceNetworkRead_loop_by_name.
    fold matches. split; [|split].
    + by intros ->.
    + intros n id -> Hn. by rewrite Hn.
    + destruct matches as [|n1 [|n2 ms]]; simpl; [lia|lia|done].
  - intros st domains more Hs Hr Hall name matches.
    rewrite (dataSourceDomainRead_listed st domains more Hs Hr Hall).
    fold name matches. split.
    + by intros ->.
    + intros domain rest id -> Hid. simpl. rewrite Hid. simpl.
      repeat split; try done.
      unfold GetString. simpl. by rewrite lookup_insert_eq.
Qed.

(** ** Replaying a lookup *)

(** A lookup that returned a response consumed a prefix of the replies, and
    any lookup (for whichever ID, from whichever record) that is given the
    same replies returns the same response. *)
Lemma resourceNetworkFind_loop_replay id id2 zones :
  ∀ st r st',
    resourceNetworkFind_loop id zones st = (Ok r, st') →
    ∃ rs,
      remote st = rs ++ remote st'
      ∧ ∀ st2 more,
          remote st2 = rs ++ more →
          ∃ st2',
            resourceNetworkFind_loop id2 zones st2 = (Ok r, st2')
            ∧ data st2' = data st2 ∧ remote st2' = more
            ∧ logs st2' = logs st2.
Proof.
  induction zones as [|zone zones IH]; intros st r st' E; [done|].
  cbn [resourceNetworkFind_loop] in E.
  unfold bind at 1, client in E.
  destruct (remote st) as [|r0 rest] eqn:Hr; [done|]. simpl in E.
  assert (Hrec :
    resourceNetworkFind_loop id zones
      {| data := data st; remote := rest;
         trace := trace st ++
           [(RequestWithContext (ListNetworks (Some id) (Zone_ID zone)), r0)];
         logs := logs st |} = (Ok r, st') →
    (∀ st2 more, remote st2 = r0 :: more →
       resourceNetworkFind_loop id2 (zone :: zones) st2
       = resourceNetworkFind_loop id2 zones
           {| data := data st2; remote := more;
              trace := trace st2 ++
                [(RequestWithContext (ListNetworks (Some id2) (Zone_ID zone)),
                  r0)];
              logs := logs st2 |}) →
    ∃ rs,
      r0 :: rest = rs ++ remote st'
      ∧ ∀ st2 more,
          remote st2 = rs ++ more →
          ∃ st2',
            resourceNetworkFind_loop id2 (zone :: zones) st2 = (Ok r, st2')
            ∧ data st2' = data st2 ∧ remote st2' = more
            ∧ logs st2' = logs st2).
  { intros E1 Hstep. destruct (IH _ _ _ E1) as (rs & Hrs & Hre).
    simpl in Hrs. exists (r0 :: rs). split; [by rewrite Hrs|].
    intros st2 more Hr2. rewrite (Hstep st2 (rs ++ more) Hr2).
    match goal with
    | |- context [resourceNetworkFind_loop id2 zones ?s] =>
        destruct (Hre s more eq_refl) as (st2' & -> & ? & ? & ?)
    end.
    by exists st2'. }
  destruct r0 as [resp|e]; simpl in E.
  - destruct resp as [| | |r0| | |]; simpl in E; try discriminate.
    unfold bind at 1 in E; simpl in E.
    destruct (0 <? LNR_Count r0)%Z eqn:Hc.
    + injection E as -> <-. exists [Reply_ok (RNetworks r)]. split; [done|].
      intros st2 more Hr2. cbn [resourceNetworkFind_loop].
      unfold bind at 1, client. rewrite Hr2. simpl.
      unfold bind at 1. simpl. rewrite Hc. by eexists.
    + apply Hrec; [done|]. intros st2 more Hr2.
      cbn [resourceNetworkFind_loop]. unfold bind at 1, client.
      rewrite Hr2. simpl. unfold bind at 1. simpl. by rewrite Hc.
  - destruct e as [code text| | | |]; simpl in E; try discriminate.
    destruct (decide (code = ParamError)) as [->|Hne].
    + apply Hrec; [done|]. intros st2 more Hr2.
      cbn [resourceNetworkFind_loop]. unfold bind at 1, client.
      by rewrite Hr2.
    + by destruct (decide (code ≠ NotFound)).
Qed.

Lemma resourceNetworkFind_replay st r st' :
  resourceNetworkFind st = (Ok r, st') →
  ∃ rs,
    remote st = rs ++ remote st'
    ∧ ∀ st2 id2 more,
        ParseUUID (Id (data st2)) = inr id2 →
        remote st2 = rs ++ more →
        ∃ st2',
          resourceNetworkFind st2 = (Ok r, st2')
          ∧ data st2' = data st2 ∧ remote st2' = more
          ∧ logs st2' = logs st2.
Proof.
  rewrite resourceNetworkFind_unfold.
  destruct (ParseUUID _) as [|id]; [done|].
  destruct (remote st) as [|r0 rest] eqn:Hr; [done|]. simpl.
  destruct r0 as [resp|e]; [|done].
  destruct resp as [|zones| | | | |]; try done. intros E.
  destruct (resourceNetworkFind_loop_replay id id zones _ _ _ E)
    as (rs & Hrs & _). simpl in Hrs.
  exists (Reply_ok (RZones zones) :: rs). split; [by rewrite Hrs|].
  intros st2 id2 more Hid2 Hr2.
  rewrite resourceNetworkFind_unfold, Hid2, Hr2. simpl.
  destruct (resourceNetworkFind_loop_replay id id2 zones _ _ _ E)
    as (rs' & Hrs' & Hre). simpl in Hrs'.
  assert (rs' = rs) as ->.
  { apply (app_inv_tail (remote st')). congruence. }
  match goal with
  | |- context [resourceNetworkFind_loop id2 zones ?s] =>
      destruct (Hre s more eq_refl) as (st2' & -> & ? & ? & ?)
  end.
  by exists st2'.
Qed.

(** Applying the same network twice is applying it once. *)
Lemma applied_idem n id d : applied n id (applied n id d) = applied n id d.
Proof.
  unfold applied. destruct (range_values n) as [[s e] m]. simpl.
  f_equal. apply map_eq. intros k.
  destruct (decide (k = "tags")) as [->|]; [by simplify_map_eq|].
  destruct (decide (k = "netmask")) as [->|]; [by simplify_map_eq|].
  destruct (decide (k = "end_ip")) as [->|]; [by simplify_map_eq|].
  destruct (decide (k = "start_ip")) as [->|]; [by simplify_map_eq|].
  destruct (decide (k = "zone")) as [->|]; [by simplify_map_eq|].
  destruct (decide (k = "display_text")) as [->|]; [by simplify_map_eq|].
  destruct (decide (k = "name")) as [->|]; [by simplify_map_eq|].
  by rewrite !lookup_insert_ne.
Qed.

Lemma resourceNetworkRead_replay st st' :
  rd_schema (data st) = resourceNetworkSchema →
  resourceNetworkRead st = (Ok tt, st') →
  ∃ rs n id,
    remote st = rs ++ remote st'
    ∧ data st' = applied n id (data st)
    ∧ ∀ st2 id2 more,
        rd_schema (data st2) = resourceNetworkSchema →
        ParseUUID (Id (data st2)) = inr id2 →
        remote st2 = rs ++ more →
        fst (resourceNetworkRead st2) = Ok tt
        ∧ data (snd (resourceNetworkRead st2)) = applied n id (data st2)
        ∧ remote (snd (resourceNetworkRead st2)) = more.
Proof.
  intros Hs E.
  destruct (resourceNetworkRead_Ok st st' Hs E)
    as (r & n & rest & id & st1 & EF & EN & Eid & ->).
  destruct (resourceNetworkFind_replay _ _ _ EF) as (rs & Hrs & Hre).
  apply resourceNetworkFind_Ok in EF as (_ & _ & Hc & _).
  exists rs, n, id. split; [done|]. split; [done|].
  intros st2 id2 more Hs2 Hid2 Hr2.
  rewrite resourceNetworkRead_unfold.
  destruct (Hre (logged DEBUG "beginning read" st2) id2 more Hid2 Hr2)
    as (st2' & -> & Hd & Hm & _).
  destruct (Z.eqb_spec (LNR_Count r) 0) as [Hz|_].
  { rewrite Hz in Hc. by apply Z.lt_irrefl in Hc. }
  rewrite EN.
  rewrite (resourceNetworkApply_ok n id); [|by simpl; rewrite Hd|done].
  simpl in *. by rewrite Hd.
Qed.

(** ** Update and Create run a Read at their end *)

Lemma send_requests_Ok requests :
  ∀ st st',
    send_requests requests st = (Ok tt, st') →
    data st' = data st ∧ ∃ evs, trace st' = trace st ++ evs.
Proof.
  induction requests as [|req requests IH]; intros st st' E; simpl in E.
  - injection E as <-. split; [done|]. exists []. by rewrite app_nil_r.
  - unfold bind at 1, client in E.
    destruct (next_reply (remote st)) as [[resp|e] rest]; simpl in E;
      [|done].
    unfold bind at 1 in E. simpl in E.
    apply IH in E as [Hd [evs Ht]]. simpl in *. split; [done|].
    eexists (_ :: evs). rewrite Ht. by rewrite <- app_assoc.
Qed.

Lemma check_not_cleared_Ok d keys :
  ∀ st st', check_not_cleared d keys st = (Ok tt, st') → st' = st.
Proof.
  induction keys as [|key keys IH]; intros st st' E; simpl in E.
  - by injection E.
  - match type of E with
    | context [if ?b then fail _ else _] => destruct b; [done|]
    end.
    by apply IH.
Qed.

Lemma resourceNetworkUpdate_Ok st st' :
  resourceNetworkUpdate st = (Ok tt, st') →
  ∃ st1 evs,
    data st1 = data st
    ∧ trace st1 = trace st ++ evs
    ∧ resourceNetworkRead st1 = (Ok tt, st').
Proof.
  intros E. unfold resourceNetworkUpdate in E.
  apply bind_Ok_inv in E as ([] & s0 & E0 & E). injection E0 as <-.
  apply bind_Ok_inv in E as (d & s1 & E1 & E). injection E1 as <- <-.
  cbn [data] in E.
  destruct (ParseUUID _) as [|id]; [done|].
  apply bind_Ok_inv in E as ([] & s2 & E2 & E).
  assert (s2 = logged DEBUG "beginning update" st) as ->.
  { destruct (_ || _); [by apply check_not_cleared_Ok in E2|].
    by injection E2. }
  destruct (updateTags _ _ _) as [err|requests]; [done|].
  apply bind_Ok_inv in E as ([] & s3 & E3 & E).
  apply send_requests_Ok in E3 as [Hd [evs Ht]].
  apply bind_Ok_inv in E as ([] & s4 & E4 & E). injection E4 as <-.
  eexists _, evs. split; [|split; [|exact E]]; simpl; done.
Qed.

(** C7: an Update that succeeds leaves the identifier of the record as it
    was: the Read that ends the Update sets the identifier from the network
    it finds, which is the network the record named, the remote side having
    honoured the ID filter of the list calls of this run.  (The identifier
    is in the textual form [UUID_String] gives, as every identifier a
    callback has stored is.) *)
Theorem update_keeps_identifier st st' id :
  rd_schema (data st) = resourceNetworkSchema →
  ParseUUID (Id (data st)) = inr id →
  UUID_String id = Id (data st) →
  resourceNetworkUpdate st = (Ok tt, st') →
  honours_id_filter (drop (length (trace st)) (trace st')) →
  Id (data st') = Id (data st).
Proof.
  intros Hs Hid Hcanon E Hf.
  apply resourceNetworkUpdate_Ok in E as (st1 & evs1 & Hd1 & Ht1 & E).
  assert (Hs1 : rd_schema (data st1) = resourceNetworkSchema)
    by (by rewrite Hd1).
  destruct (resourceNetworkRead_Ok st1 st' Hs1 E)
    as (r & n & rest & nid & st2 & EF & EN & Eid & ->).
  apply resourceNetworkFind_Ok in EF
    as (id' & Hid' & _ & _ & _ & evs2 & zoneID & Ht2 & Hin).
  simpl in Hid', Ht2. rewrite Hd1, Hid in Hid'. injection Hid' as <-.
  assert (Hn : Network_ID n = Some id).
  { apply (Hf id zoneID r n).
    - simpl. rewrite Ht2, Ht1, <- app_assoc, drop_app_length.
      apply elem_of_app. by right.
    - rewrite EN. by left. }
  rewrite Hn in Eid. injection Eid as <-.
  unfold applied. destruct (range_values n) as [[? ?] ?]. simpl.
  exact Hcanon.
Qed.

Lemma client_Ok c st p st' :
  client c st = (Ok p, st') →
  ∃ r rest,
    next_reply (remote st) = (r, rest) ∧ p = go_pair r
    ∧ st' = called c r rest st.
Proof.
  unfold client. destruct (next_reply (remote st)) as [r rest].
  intros [= <- <-]. by exists r, rest.
Qed.

Lemma getZoneByName_Ok zoneName st zone st' :
  getZoneByName zoneName st = (Ok zone, st') →
  ∃ zones rest,
    remote st = Reply_ok (RZones zones) :: rest
    ∧ resolves zones zoneName zone
    ∧ st' = called (RequestWithContext ListZones) (Reply_ok (RZones zones))
                   rest st.
Proof.
  rewrite getZoneByName_unfold.
  destruct (remote st) as [|[resp|e] rest]; [done| |done]. simpl.
  destruct resp as [|zones| | | | |]; try done.
  destruct (List.find _ zones) as [z|] eqn:Hz; [|done].
  intros [= <- <-]. by exists zones, rest.
Qed.

(** A Create that succeeds has stored the ID of the network the create
    request returned and then run a Read. *)
Lemma resourceNetworkCreate_Ok st st' :
  resourceNetworkCreate st = (Ok tt, st') →
  ∃ st1 zone n id,
    (RequestWithContext (create_request (data st) zone),
     Reply_ok (RNetwork n)) ∈ trace st1
    ∧ Network_ID n = Some id
    ∧ data st1 = SetId (UUID_String id) (data st)
    ∧ resourceNetworkRead st1 = (Ok tt, st').
Proof.
  intros E. unfold resourceNetworkCreate in E.
  apply bind_Ok_inv in E as ([] & s0 & E0 & E). injection E0 as <-.
  apply bind_Ok_inv in E as (d & s1 & E1 & E). injection E1 as <- <-.
  cbn [data] in E.
  apply bind_Ok_inv in E as (zone & s2 & Ez & E).
  apply getZoneByName_Ok in Ez as (zones & rest & _ & _ & ->).
  match type of E with
  | context [if ?b then fail _ else _] => destruct b; [done|]
  end.
  match type of E with
  | context [if ?b then fail _ else _] => destruct b; [done|]
  end.
  apply bind_Ok_inv in E as (p & s3 & Ec & E).
  apply client_Ok in Ec as (r & rest' & _ & -> & ->).
  apply bind_Ok_inv in E as ([] & s4 & Ek & E).
  destruct r as [resp|e]; [|done]. injection Ek as <-.
  apply bind_Ok_inv in E as (n1 & s5 & En & E).
  destruct resp as [| |n| | | |]; try done. injection En as <- <-.
  apply bind_Ok_inv in E as (id1 & s6 & Ei & E).
  destruct (Network_ID n) as [id|] eqn:Hid; [|done]. injection Ei as <- <-.
  apply bind_Ok_inv in E as ([] & s7 & Em & E). injection Em as <-.
  apply bind_Ok_inv in E as (d' & s8 & Ed & E). injection Ed as <- <-.
  apply bind_Ok_inv in E as ([] & s9 & Et & E).
  apply bind_Ok_inv in E as ([] & s10 & El & E). injection El as <-.
  assert (Hframe : data s9 = SetId (UUID_String id) (data st)
    ∧ (RequestWithContext (create_request (data st) zone),
       Reply_ok (RNetwork n)) ∈ trace s9).
  { cbn [data] in Et.
    destruct (createTags _ _ _) as [err|[cmd|]]; [done| |].
    - apply bind_Ok_inv in Et as (err & s11 & Eb & Et).
      unfold client_bool in Eb.
      apply bind_Ok_inv in Eb as (p & s12 & Ec & Eb).
      apply client_Ok in Ec as (r & rest2 & _ & -> & ->).
      injection Eb as <- <-.
      destruct r as [resp|e]; simpl in Et.
      + injection Et as <-. simpl. split; [done|].
        apply elem_of_app. left. apply elem_of_app. right. by left.
      + apply bind_Ok_inv in Et as (x & s13 & _ & Et).
        apply bind_Ok_inv in Et as (y & s14 & _ & Et). done.
    - injection Et as <-. simpl. split; [done|].
      apply elem_of_app. right. by left. }
  destruct Hframe as [Hd Hin].
  eexists _, zone, n, id. split; [|split; [done|split; [|exact E]]]; simpl;
    done.
Qed.

(** ** The anti-affinity group: Read and Create *)

Lemma affinity_applied_idem ag d :
  affinity_applied ag (affinity_applied ag d) = affinity_applied ag d.
Proof.
  unfold affinity_applied. simpl. f_equal. apply map_eq. intros k.
  destruct (decide (k = "virtual_machine_ids")) as [->|];
    [by simplify_map_eq|].
  destruct (decide (k = "type")) as [->|]; [by simplify_map_eq|].
  destruct (decide (k = "description")) as [->|]; [by simplify_map_eq|].
  destruct (decide (k = "name")) as [->|]; [by simplify_map_eq|].
  by rewrite !lookup_insert_ne.
Qed.

Lemma affinity_read_effect_idem r d :
  affinity_read_effect r (affinity_read_effect r d) = affinity_read_effect r d.
Proof.
  destruct r as [resp|e]; [|done].
  destruct resp; try done. apply affinity_applied_idem.
Qed.

Lemma resourceAffinityRead_run st id r more :
  rd_schema (data st) = resourceAffinitySchema →
  ParseUUID (Id (data st)) = inr id →
  remote st = r :: more →
  resourceAffinityRead st =
  match r with
  | Reply_ok (RAffinityGroup ag) =>
      (Ok tt, with_data (affinity_applied ag (data st))
                (logged DEBUG "read finished successfully"
                   (affinity_read_state id r more st)))
  | Reply_ok _ =>
      (Panic conversion_panic,
       logged DEBUG "read finished successfully"
         (affinity_read_state id r more st))
  | Reply_err e =>
      if is_not_found e
      then (Ok tt, with_data (SetId "" (data st))
                     (affinity_read_state id r more st))
      else (Err e, affinity_read_state id r more st)
  end.
Proof.
  intros Hs Hid Hr. unfold resourceAffinityRead.
  unfold bind at 1. simpl. unfold bind at 1. simpl. rewrite Hid.
  unfold bind at 1, client. simpl. rewrite Hr. simpl.
  destruct r as [resp|e]; simpl.
  - unfold bind at 1. simpl. unfold bind at 1.
    destruct resp; try done. simpl.
    unfold resourceAffinityApply, affinity_applied, bind, set_checked,
      Set_, check, with_data, logged, called. simpl.
    rewrite !Hs. simpl. done.
  - unfold handleNotFound. by destruct (is_not_found e).
Qed.

Lemma resourceAffinityRead_Ok_shape st st' :
  resourceAffinityRead st = (Ok tt, st') →
  ∃ id r more, ParseUUID (Id (data st)) = inr id ∧ remote st = r :: more.
Proof.
  intros E. unfold resourceAffinityRead in E.
  apply bind_Ok_inv in E as ([] & s0 & E0 & E). injection E0 as <-.
  apply bind_Ok_inv in E as (d & s1 & E1 & E). injection E1 as <- <-.
  cbn [data] in E.
  destruct (ParseUUID _) as [|id]; [done|].
  apply bind_Ok_inv in E as (p & s2 & Ec & E).
  apply client_Ok in Ec as (r & rest & Hn & -> & ->).
  simpl in Hn. destruct (remote st) as [|r0 rest0] eqn:Hr.
  - injection Hn as <- <-. simpl in E.
    apply bind_Ok_inv in E as (x & s3 & Eh & E). by injection Eh as <- <-.
  - by exists id, r0, rest0.
Qed.

(** A Read of the group that succeeds consumed one reply, and any Read of
    the group that is given the same reply does the same to its record. *)
Lemma resourceAffinityRead_replay st st' :
  rd_schema (data st) = resourceAffinitySchema →
  resourceAffinityRead st = (Ok tt, st') →
  ∃ r,
    remote st = r :: remote st'
    ∧ data st' = affinity_read_effect r (data st)
    ∧ ∀ st2 id2 more,
        rd_schema (data st2) = resourceAffinitySchema →
        ParseUUID (Id (data st2)) = inr id2 →
        remote st2 = r :: more →
        fst (resourceAffinityRead st2) = Ok tt
        ∧ data (snd (resourceAffinityRead st2))
          = affinity_read_effect r (data st2).
Proof.
  intros Hs E.
  destruct (resourceAffinityRead_Ok_shape _ _ E) as (id & r & more & Hid & Hr).
  rewrite (resourceAffinityRead_run st id r more Hs Hid Hr) in E.
  exists r.
  destruct r as [resp|e].
  - destruct resp as [| | | |ag| |]; try done. injection E as <-.
    split; [done|]. split; [done|].
    intros st2 id2 more2 Hs2 Hid2 Hr2.
    by rewrite (resourceAffinityRead_run st2 id2 _ more2 Hs2 Hid2 Hr2).
  - destruct (is_not_found e) eqn:He; [|done]. injection E as <-.
    split; [done|]. split; [done|].
    intros st2 id2 more2 Hs2 Hid2 Hr2.
    rewrite (resourceAffinityRead_run st2 id2 _ more2 Hs2 Hid2 Hr2).
    by rewrite He.
Qed.

Lemma resourceAffinityCreate_Ok st st' :
  resourceAffinityCreate st = (Ok tt, st') →
  ∃ st1 ag id,
    (RequestWithContext
       (CreateAffinityGroup (GetString (data st) "name")
                            (GetString (data st) "description")
                            (GetString (data st) "type")),
     Reply_ok (RAffinityGroup ag)) ∈ trace st1
    ∧ AG_ID ag = Some id
    ∧ data st1 = SetId (UUID_String id) (data st)
    ∧ resourceAffinityRead st1 = (Ok tt, st').
Proof.
  intros E. unfold resourceAffinityCreate in E.
  apply bind_Ok_inv in E as ([] & s0 & E0 & E). injection E0 as <-.
  apply bind_Ok_inv in E as (d & s1 & E1 & E). injection E1 as <- <-.
  cbn [data] in E.
  apply bind_Ok_inv in E as (p & s2 & Ec & E).
  apply client_Ok in Ec as (r & rest & _ & -> & ->).
  apply bind_Ok_inv in E as ([] & s3 & Ek & E).
  destruct r as [resp|e]; [|done]. injection Ek as <-.
  apply bind_Ok_inv in E as (ag1 & s4 & Ea & E).
  destruct resp as [| | | |ag| |]; try done. injection Ea as <- <-.
  apply bind_Ok_inv in E as (id1 & s5 & Ei & E).
  destruct (AG_ID ag) as [id|] eqn:Hid; [|done]. injection Ei as <- <-.
  apply bind_Ok_inv in E as ([] & s6 & Em & E). injection Em as <-.
  apply bind_Ok_inv in E as ([] & s7 & El & E). injection El as <-.
  eexists _, ag, id. split; [|split; [done|split; [|exact E]]]; simpl;
    [|done].
  apply elem_of_app. right. by left.
Qed.

(** C8: a Create that succeeds has stored the identifier the create request
    returned and then run a Read, whose result is the record Create
    leaves; and a Read run right after Create, against a remote side that
    answers it as it answered Create's own Read, succeeds and leaves that
    same record.  This holds for the network and for the anti-affinity
    group.  (The identifier Create leaves has to parse, as the text of any
    ID does.) *)
Theorem create_then_read_converges :
  (∀ st st',
     rd_schema (data st) = resourceNetworkSchema →
     resourceNetworkCreate st = (Ok tt, st') →
     ∃ st1 zone n id rs,
       (RequestWithContext (create_request (data st) zone),
        Reply_ok (RNetwork n)) ∈ trace st1
       ∧ Network_ID n = Some id
       ∧ Id (data st1) = UUID_String id
       ∧ resourceNetworkRead st1 = (Ok tt, st')
       ∧ remote st1 = rs ++ remote st'
       ∧ ∀ id2 more,
           ParseUUID (Id (data st')) = inr id2 →
           let again :=
             resourceNetworkRead
               {| data := data st'; remote := rs ++ more;
                  trace := trace st'; logs := logs st' |} in
           fst again = Ok tt ∧ data (snd again) = data st')
  ∧ (∀ st st',
       rd_schema (data st) = resourceAffinitySchema →
       resourceAffinityCreate st = (Ok tt, st') →
       ∃ st1 ag id r,
         (RequestWithContext
            (CreateAffinityGroup (GetString (data st) "name")
                                 (GetString (data st) "description")
                                 (GetString (data st) "type")),
          Reply_ok (RAffinityGroup ag)) ∈ trace st1
         ∧ AG_ID ag = Some id
         ∧ Id (data st1) = UUID_String id
         ∧ resourceAffinityRead st1 = (Ok tt, st')
         ∧ remote st1 = r :: remote st'
         ∧ ∀ id2 more,
             ParseUUID (Id (data st')) = inr id2 →
             let again :=
               resourceAffinityRead
                 {| data := data st'; remote := r :: more;
                    trace := trace st'; logs := logs st' |} in
             fst again = Ok tt ∧ data (snd again) = data st').
Proof.
  split.
  - intros st st' Hs E.
    apply resourceNetworkCreate_Ok in E as (st1 & zone & n & id & Hin & Hid & Hd & E).
    assert (Hs1 : rd_schema (data st1) = resourceNetworkSchema)
      by (by rewrite Hd).
    destruct (resourceNetworkRead_replay st1 st' Hs1 E)
      as (rs & n' & id' & Hrs & Hd' & Hre).
    assert (Hs' : rd_schema (data st') = resourceNetworkSchema).
    { rewrite Hd'. unfold applied. by destruct (range_values n') as [[? ?] ?]. }
    exists st1, zone, n, id, rs.
    split; [done|]. split; [done|]. split; [by rewrite Hd|].
    split; [done|]. split; [done|].
    intros id2 more Hid2.
    destruct (Hre {| data := data st'; remote := rs ++ more;
                     trace := trace st'; logs := logs st' |} id2 more
                  Hs' Hid2 eq_refl) as (Hok & Hd2 & _).
    split; [done|]. cbn [data] in Hd2. rewrite Hd2, Hd'. apply applied_idem.
  - intros st st' Hs E.
    apply resourceAffinityCreate_Ok in E as (st1 & ag & id & Hin & Hid & Hd & E).
    assert (Hs1 : rd_schema (data st1) = resourceAffinitySchema)
      by (by rewrite Hd).
    destruct (resourceAffinityRead_replay st1 st' Hs1 E)
      as (r & Hr & Hd' & Hre).
    assert (Hs' : rd_schema (data st') = resourceAffinitySchema).
    { rewrite Hd'. destruct r as [resp|e]; [|done]. by destruct resp. }
    exists st1, ag, id, r.
    split; [done|]. split; [done|]. split; [by rewrite Hd|].
    split; [done|]. split; [done|].
    intros id2 more Hid2.
    destruct (Hre {| data := data st'; remote := r :: more;
                     trace := trace st'; logs := logs st' |} id2 more
                  Hs' Hid2 eq_refl) as (Hok & Hd2).
    split; [done|]. cbn [data] in Hd2. rewrite Hd2, Hd'.
    apply affinity_read_effect_idem.
Qed.

Lemma honours_id_filter_test evs :
  forallb event_honours_id_filter evs = true → honours_id_filter evs.
Proof.
  intros HF id zoneID r n Hin Hn.
  rewrite forallb_forall in HF. apply list_elem_of_In in Hin, Hn.
  specialize (HF _ Hin). simpl in HF.
  rewrite forallb_forall in HF. specialize (HF _ Hn).
  by apply bool_decide_eq_true in HF.
Qed.

(** ** Frames of the callbacks *)

Lemma frames_bind (P : State → State → Prop) {A B} (m : M A) (k : A → M B) :
  (∀ s1 s2 s3, P s1 s2 → P s2 s3 → P s1 s3) →
  frames P m → (∀ a, frames P (k a)) → frames P (bind m k).
Proof.
  intros Htrans Hm Hk st. unfold bind. specialize (Hm st).
  destruct (m st) as [[a|e|msg] st1]; simpl in *; try done.
  eapply Htrans; [exact Hm|apply Hk].
Qed.

Lemma same_data_trans s1 s2 s3 :
  same_data s1 s2 → same_data s2 s3 → same_data s1 s3.
Proof. unfold same_data. congruence. Qed.

Lemma only_reads_refl st : only_reads st st.
Proof. exists []. by rewrite app_nil_r. Qed.

Lemma only_reads_trans s1 s2 s3 :
  only_reads s1 s2 → only_reads s2 s3 → only_reads s1 s3.
Proof.
  intros (e1 & H1 & F1) (e2 & H2 & F2). exists (e1 ++ e2).
  split; [by rewrite H2, H1, app_assoc|by apply Forall_app].
Qed.

Lemma same_data_client c : frames same_data (client c).
Proof. intros st. unfold client. by destruct (next_reply _). Qed.

Lemma only_reads_client c : mutating c = false → frames only_reads (client c).
Proof.
  intros Hc st. unfold client. destruct (next_reply _) as [r rest]. simpl.
  exists [(c, r)]. split; [done|]. by repeat constructor.
Qed.

Lemma only_reads_same_trace {A} (m : M A) :
  (∀ st, trace (snd (m st)) = trace st) → frames only_reads m.
Proof. intros H st. exists []. by rewrite app_nil_r. Qed.

Lemma only_reads_set_checked key v : frames only_reads (set_checked key v).
Proof.
  apply only_reads_same_trace. intros st. unfold set_checked.
  destruct (Set_ key v (data st)) as [[e|] d]; done.
Qed.

Lemma frames_pure (P : State → State → Prop) {A} (m : M A) :
  (∀ st, P st st) → (∀ st, snd (m st) = st) → frames P m.
Proof. intros Hrefl Hm st. by rewrite Hm. Qed.

(** The steps of a callback that neither call the client nor touch the
    state. *)
Ltac pure_run :=
  intros ?;
  unfold assert_Zones, assert_Network, assert_Networks, assert_AffinityGroup,
    assert_List, assert_Domains, deref, check, lift, ret, fail, panic,
    get_data;
  repeat case_match; reflexivity.

(** Steps through the binds of a callback, leaving the loops. *)
Ltac frame_same_data :=
  repeat first
    [ assumption
    | apply frames_bind; [exact same_data_trans| |intros]
    | apply same_data_client
    | apply frames_pure; [by intros ?|pure_run]
    | match goal with
      | |- frames same_data (match ?x with _ => _ end) => destruct x
      | |- frames same_data (let '(_, _) := ?x in _) => destruct x
      end
    | by intros ? ].

Ltac frame_only_reads :=
  repeat first
    [ assumption
    | apply frames_bind; [exact only_reads_trans| |intros]
    | apply only_reads_client; reflexivity
    | apply only_reads_set_checked
    | apply frames_pure; [exact only_reads_refl|pure_run]
    | match goal with
      | |- frames only_reads (match ?x with _ => _ end) => destruct x
      | |- frames only_reads (let '(_, _) := ?x in _) => destruct x
      end
    | by (apply only_reads_same_trace; intros ?) ].

Lemma same_data_Find_loop id zones :
  frames same_data (resourceNetworkFind_loop id zones).
Proof.
  induction zones as [|zone zones IH]; [by intros ?|].
  cbn [resourceNetworkFind_loop]. frame_same_data.
Qed.

Lemma only_reads_Find_loop id zones :
  frames only_reads (resourceNetworkFind_loop id zones).
Proof.
  induction zones as [|zone zones IH]; [apply only_reads_same_trace; by intros ?|].
  cbn [resourceNetworkFind_loop]. frame_only_reads.
Qed.

Lemma same_data_Find : frames same_data resourceNetworkFind.
Proof.
  unfold resourceNetworkFind. frame_same_data. apply same_data_Find_loop.
Qed.

Lemma only_reads_Find : frames only_reads resourceNetworkFind.
Proof.
  unfold resourceNetworkFind. frame_only_reads. apply only_reads_Find_loop.
Qed.

Lemma frames_try (P : State → State → Prop) {A} (m : M A) :
  frames P m → frames P (try m).
Proof.
  intros Hm st. unfold try. specialize (Hm st).
  by destruct (m st) as [[a|e|msg] st1].
Qed.

Lemma same_data_getZoneByName zoneName :
  frames same_data (getZoneByName zoneName).
Proof. unfold getZoneByName. frame_same_data. Qed.

Lemma only_reads_getZoneByName zoneName :
  frames only_reads (getZoneByName zoneName).
Proof. unfold getZoneByName. frame_only_reads. Qed.

(** X1: the reads of a network (the Read and the existence probe of the
    resource, the Read of the data source) and the Read of the domain data
    source only append to the trace, and every call they make, however they
    end, is a read: none of them creates, updates, deletes or tags
    anything. *)
Theorem reads_never_mutate :
  frames only_reads resourceNetworkRead
  ∧ frames only_reads resourceNetworkExists
  ∧ frames only_reads dataSourceNetworkRead
  ∧ frames only_reads dataSourceDomainRead.
Proof.
  split; [|split; [|split]].
  - unfold resourceNetworkRead, resourceNetworkApply. frame_only_reads.
    apply only_reads_Find_loop.
  - unfold resourceNetworkExists.
    apply frames_bind; [exact only_reads_trans| |intros r].
    + apply frames_try, only_reads_Find.
    + frame_only_reads.
  - unfold dataSourceNetworkRead. frame_only_reads.
  - unfold dataSourceDomainRead. frame_only_reads.
Qed.

(** X2: the lookup of a network and its existence probe leave the record as
    it was, however they end: the probe never clears the identifier, since
    the lookup never hands it a response without a match. *)
Theorem network_probe_keeps_record :
  frames same_data resourceNetworkFind
  ∧ frames same_data resourceNetworkExists.
Proof.
  split; [apply same_data_Find|].
  intros st. rewrite resourceNetworkExists_unfold.
  pose proof (same_data_Find st) as Hd.
  destruct (resourceNetworkFind st) as [[r|e|msg] st1] eqn:EF; try done.
  apply resourceNetworkFind_Ok in EF as (_ & _ & Hc & _).
  destruct (Z.eqb_spec (LNR_Count r) 0) as [Hz|_]; [|done].
  rewrite Hz in Hc. by apply Z.lt_irrefl in Hc.
Qed.

Lemma fails_clean_frames S {A} (m : M A) :
  frames same_data m → fails_clean S m.
Proof. intros Hm st _. right. apply Hm. Qed.

Lemma fails_clean_bind S {A B} (m : M A) (k : A → M B) :
  frames same_data m → (∀ a, fails_clean S (k a)) →
  fails_clean S (bind m k).
Proof.
  intros Hm Hk st Hs. unfold bind. specialize (Hm st).
  destruct (m st) as [[a|e|msg] st1]; simpl in *; try by right.
  unfold same_data in Hm.
  destruct (Hk a st1) as [H|H]; [by rewrite Hm|by left|].
  right. by rewrite H.
Qed.

Lemma dataSourceDomainRead_loop_Some domainName domains domain :
  dataSourceDomainRead_loop domainName domains = Ok (Some domain) →
  Domain_UnicodeName domain = Some domainName.
Proof.
  induction domains as [|item domains IH]; [done|]. simpl.
  destruct (Domain_UnicodeName item) as [name|] eqn:Hn; [|done].
  destruct (String.eqb_spec name domainName) as [->|_]; [|done].
  by intros [= <-].
Qed.

(** X3: a Read that does not succeed leaves the record as it was: the
    identifier and the attributes are written only once the remote object
    is in hand.  This holds for the Read of the network resource, of the
    network data source and of the domain data source, each on a record of
    its schema. *)
Theorem failed_read_keeps_record :
  fails_clean resourceNetworkSchema resourceNetworkRead
  ∧ fails_clean dataSourceNetworkSchema dataSourceNetworkRead
  ∧ fails_clean dataSourceDomainSchema dataSourceDomainRead.
Proof.
  split; [|split].
  - intros st Hs. rewrite resourceNetworkRead_unfold.
    pose proof (same_data_Find (logged DEBUG "beginning read" st)) as Hd.
    destruct (resourceNetworkFind _) as [[r|e|msg] st1]; try by right.
    unfold same_data in Hd. simpl in Hd.
    destruct (LNR_Count r =? 0)%Z; [by right|].
    destruct (LNR_Network r) as [|n rest]; [by right|].
    destruct (Network_ID n) as [id|] eqn:Hid.
    + left. exists tt.
      by rewrite (resourceNetworkApply_ok n id); [| simpl; rewrite Hd|].
    + right. unfold resourceNetworkApply. by rewrite Hid.
  - unfold dataSourceNetworkRead.
    apply fails_clean_bind; [frame_same_data|intros d].
    apply fails_clean_bind; [apply same_data_getZoneByName|intros zone].
    destruct (negb _ && negb _); [apply fails_clean_frames; frame_same_data|].
    apply fails_clean_bind; [frame_same_data|intros networkID].
    apply fails_clean_bind; [frame_same_data|intros p].
    destruct (snd p); [apply fails_clean_frames; frame_same_data|].
    apply fails_clean_bind; [frame_same_data|intros resp].
    apply fails_clean_bind; [frame_same_data|intros [n|]];
      [|apply fails_clean_frames; frame_same_data].
    apply fails_clean_bind; [frame_same_data|intros id].
    intros st Hs. left. exists tt. destruct st as [d0 rs tr lg].
    simpl in Hs.
    destruct (Network_StartIP n), (Network_EndIP n), (Network_Netmask n);
      unfold bind, ret, modify_data, get_data, set_checked,
             set_unchecked, Set_, check, SetId, Id; simpl;
      rewrite !Hs; simpl; reflexivity.
  - unfold dataSourceDomainRead.
    apply fails_clean_bind; [frame_same_data|intros []].
    apply fails_clean_bind; [frame_same_data|intros d].
    apply fails_clean_bind; [frame_same_data|intros p].
    destruct (snd p); [apply fails_clean_frames; frame_same_data|].
    apply fails_clean_bind; [frame_same_data|intros domains].
    intros st Hs. unfold lift.
    destruct (dataSourceDomainRead_loop _ _) as [[domain|]|e|msg] eqn:EL;
      try by right.
    apply dataSourceDomainRead_loop_Some in EL.
    destruct (Domain_ID domain) as [id|] eqn:Hid; [left; exists tt|right].
    2:{ unfold bind, deref. simpl. by rewrite Hid. }
    destruct st as [d0 rs tr lg]. simpl in Hs.
    unfold bind, deref, ret, modify_data, set_checked, Set_, check, tflog,
      SetId; simpl. rewrite Hid, EL. simpl. rewrite Hs. simpl. reflexivity.
Qed.

(** ** Identifiers that do not parse, and Delete *)

(** X4: on a record whose identifier is no UUID, the Read and the existence
    probe of the network resource panic (the lookup parses the identifier
    with MustParseUUID), where Update and Delete return the parser's error;
    none of the four makes a call or touches the record. *)
Theorem network_callbacks_on_ill_formed_identifier st err :
  ParseUUID (Id (data st)) = inl err →
  resourceNetworkRead st
  = (Panic "MustParseUUID", logged DEBUG "beginning read" st)
  ∧ resourceNetworkExists st = (Panic "MustParseUUID", st)
  ∧ resourceNetworkUpdate st = (Err err, logged DEBUG "beginning update" st)
  ∧ resourceNetworkDelete st = (Err err, logged DEBUG "beginning delete" st).
Proof.
  intros Hid. split; [|split; [|split]].
  - rewrite resourceNetworkRead_unfold, resourceNetworkFind_unfold.
    simpl. by rewrite Hid.
  - rewrite resourceNetworkExists_unfold, resourceNetworkFind_unfold.
    by rewrite Hid.
  - unfold resourceNetworkUpdate. unfold bind at 1. simpl.
    unfold bind at 1. simpl. by rewrite Hid.
  - unfold resourceNetworkDelete. unfold bind at 1. simpl.
    unfold bind at 1. simpl. by rewrite Hid.
Qed.

(** X5: Delete of a network whose identifier parses sends exactly one
    delete request, for that ID, and returns what the request returns: nil,
    or its error whatever it is, a not-found error of an already absent
    network included.  The record keeps its identifier and attributes. *)
Theorem network_delete_sends_one_request st id :
  ParseUUID (Id (data st)) = inr id →
  let reply := fst (next_reply (remote st)) in
  let st' := snd (resourceNetworkDelete st) in
  fst (resourceNetworkDelete st)
  = match reply with Reply_ok _ => Ok tt | Reply_err e => Err e end
  ∧ trace st'
    = trace st ++ [(BooleanRequestWithContext (DeleteNetwork (Some id)), reply)]
  ∧ data st' = data st.
Proof.
  intros Hid. unfold resourceNetworkDelete, bind, client_bool, bind, client.
  simpl. rewrite Hid. simpl.
  by destruct (next_reply (remote st)) as [[resp|e] rest].
Qed.

(** X6: Delete of an anti-affinity group whose identifier parses sends
    exactly one delete call, for that ID, and returns what the call returns:
    nil, or its error whatever it is.  The record keeps its identifier and
    attributes. *)
Theorem affinity_delete_sends_one_request st id :
  ParseUUID (Id (data st)) = inr id →
  let reply := fst (next_reply (remote st)) in
  let st' := snd (resourceAffinityDelete st) in
  fst (resourceAffinityDelete st)
  = match reply with Reply_ok _ => Ok tt | Reply_err e => Err e end
  ∧ trace st' = trace st ++ [(DeleteWithContext (AffinityGroup_byID id), reply)]
  ∧ data st' = data st.
Proof.
  intros Hid. unfold resourceAffinityDelete, bind, client.
  simpl. rewrite Hid. simpl.
  by destruct (next_reply (remote st)) as [[resp|e] rest].
Qed.

(** ** More on the lookup and on Read of the network resource *)

Lemma resourceNetworkFind_loop_fatal id zones1 zone zones2 code text :
  code ≠ ParamError → code ≠ NotFound →
  ∀ answers more st,
    remote st = (answer_reply <$> answers)
                ++ Reply_err (ErrorResponse code text) :: more →
    length answers = length zones1 →
    first_match answers = None →
    let '(out, st') :=
      resourceNetworkFind_loop id (zones1 ++ zone :: zones2) st in
    out = Err (ErrorResponse code text)
    ∧ trace st'
      = trace st ++ lookup_events id zones1 answers
        ++ [(RequestWithContext (ListNetworks (Some id) (Zone_ID zone)),
             Reply_err (ErrorResponse code text))]
    ∧ data st' = data st.
Proof.
  intros Hp Hn.
  induction zones1 as [|z zones1 IH]; intros answers more st Hr Hl Hnone.
  - destruct answers; [|done]. simpl in Hr. simpl.
    unfold bind at 1, client. rewrite Hr. simpl.
    rewrite decide_False by done. by rewrite decide_True.
  - destruct answers as [|a answers]; [done|].
    simpl in Hr, Hl. injection Hl as Hl.
    cbn [app resourceNetworkFind_loop].
    rewrite (bind_Ok _ _ _ _ _ (client_step _ _ _ _ Hr)).
    destruct a as [t|r]; simpl in Hnone |- *.
    + match goal with
      | |- context [resourceNetworkFind_loop id _ ?s] =>
          specialize (IH answers more s eq_refl Hl Hnone);
          destruct (resourceNetworkFind_loop id _ s) as [out st']
      end.
      destruct IH as (-> & -> & ->). simpl. by rewrite <- app_assoc.
    + unfold bind at 1. simpl.
      destruct (0 <? LNR_Count r)%Z; [done|].
      match goal with
      | |- context [resourceNetworkFind_loop id _ ?s] =>
          specialize (IH answers more s eq_refl Hl Hnone);
          destruct (resourceNetworkFind_loop id _ s) as [out st']
      end.
      destruct IH as (-> & -> & ->). simpl. by rewrite <- app_assoc.
Qed.

(** X7: when a zone's list call fails with a typed API error whose code is
    neither the parameter error nor not-found, the zones before it having
    had no match, the lookup stops there and returns that error: the zones
    after it are not asked.  Read returns the error, and the existence probe
    returns it with the answer false. *)
Theorem lookup_stops_at_api_error
    st id zones1 zone zones2 answers code text more :
  ParseUUID (Id (data st)) = inr id →
  code ≠ ParamError → code ≠ NotFound →
  remote st
  = Reply_ok (RZones (zones1 ++ zone :: zones2))
    :: (answer_reply <$> answers)
       ++ Reply_err (ErrorResponse code text) :: more →
  length answers = length zones1 →
  first_match answers = None →
  fst (resourceNetworkFind st) = Err (ErrorResponse code text)
  ∧ trace (snd (resourceNetworkFind st))
    = trace st
      ++ (RequestWithContext ListZones,
          Reply_ok (RZones (zones1 ++ zone :: zones2)))
         :: lookup_events id zones1 answers
      ++ [(RequestWithContext (ListNetworks (Some id) (Zone_ID zone)),
           Reply_err (ErrorResponse code text))]
  ∧ fst (resourceNetworkRead st) = Err (ErrorResponse code text)
  ∧ fst (resourceNetworkExists st)
    = Ok (false, Some (ErrorResponse code text)).
Proof.
  intros Hid Hp Hn Hr Hl Hnone.
  assert (HF : ∀ s, data s = data st → remote s = remote st →
    let '(out, s') := resourceNetworkFind s in
    out = Err (ErrorResponse code text)
    ∧ trace s'
      = trace s
        ++ (RequestWithContext ListZones,
            Reply_ok (RZones (zones1 ++ zone :: zones2)))
           :: lookup_events id zones1 answers
        ++ [(RequestWithContext (ListNetworks (Some id) (Zone_ID zone)),
             Reply_err (ErrorResponse code text))]).
  { intros s Hd Hrs. rewrite resourceNetworkFind_unfold, Hd, Hid, Hrs, Hr.
    simpl.
    match goal with
    | |- context [resourceNetworkFind_loop id _ ?s1] =>
        pose proof (resourceNetworkFind_loop_fatal id zones1 zone zones2
                      code text Hp Hn answers more s1 eq_refl Hl Hnone) as H;
        destruct (resourceNetworkFind_loop id _ s1) as [out s']
    end.
    destruct H as (-> & -> & _). simpl. by rewrite <- app_assoc. }
  split; [|split; [|split]].
  - specialize (HF st eq_refl eq_refl).
    by destruct (resourceNetworkFind st) as [out s'], HF as [-> _].
  - specialize (HF st eq_refl eq_refl).
    by destruct (resourceNetworkFind st) as [out s'], HF as [_ H].
  - rewrite resourceNetworkRead_unfold.
    specialize (HF (logged DEBUG "beginning read" st) eq_refl eq_refl).
    by destruct (resourceNetworkFind _) as [out s'], HF as [-> _].
  - rewrite resourceNetworkExists_unfold.
    specialize (HF st eq_refl eq_refl).
    by destruct (resourceNetworkFind st) as [out s'], HF as [-> _].
Qed.

(** X8: Read trusts the count of the response: when the first response
    that announces matches (Count > 0) carries no network, Read panics on
    the index, with the record untouched, while the existence probe answers
    true. *)
Theorem read_trusts_response_count st id zones answers more r :
  ParseUUID (Id (data st)) = inr id →
  remote st = Reply_ok (RZones zones) :: (answer_reply <$> answers) ++ more →
  length answers = length zones →
  first_match answers = Some r →
  LNR_Network r = [] →
  fst (resourceNetworkRead st) = Panic index_panic
  ∧ data (snd (resourceNetworkRead st)) = data st
  ∧ fst (resourceNetworkExists st) = Ok (true, None).
Proof.
  intros Hid Hr Hl Hsome Hempty.
  assert (Hc : (LNR_Count r =? 0)%Z = false).
  { pose proof (resourceNetworkFind_answers st id zones answers more
                  Hid Hr Hl) as H.
    destruct (resourceNetworkFind st) as [out st1] eqn:EF.
    destruct H as (-> & _). rewrite Hsome in EF.
    apply resourceNetworkFind_Ok in EF as (_ & _ & Hc & _).
    apply Z.eqb_neq. intros Hz. rewrite Hz in Hc. by apply Z.lt_irrefl in Hc. }
  split; [|split].
  - rewrite resourceNetworkRead_unfold.
    pose proof (resourceNetworkFind_answers
                  (logged DEBUG "beginning read" st) id zones answers more
                  Hid Hr Hl) as H.
    destruct (resourceNetworkFind _) as [out st1].
    destruct H as (-> & _). rewrite Hsome. simpl. by rewrite Hc, Hempty.
  - rewrite resourceNetworkRead_unfold.
    pose proof (resourceNetworkFind_answers
                  (logged DEBUG "beginning read" st) id zones answers more
                  Hid Hr Hl) as H.
    destruct (resourceNetworkFind _) as [out st1].
    destruct H as (-> & _ & Hd & _). rewrite Hsome. simpl.
    by rewrite Hc, Hempty.
  - rewrite resourceNetworkExists_unfold.
    pose proof (resourceNetworkFind_answers st id zones answers more
                  Hid Hr Hl) as H.
    destruct (resourceNetworkFind st) as [out st1].
    destruct H as (-> & _). rewrite Hsome. simpl. by rewrite Hc.
Qed.

Lemma tags_fold_lookup tags k :
  ∀ m : gmap string string,
    foldl (λ m tag, <[Tag_Key tag := Tag_Value tag]> m) m tags !! k
    = match last_tag_value tags k with
      | Some v => Some v
      | None => m !! k
      end.
Proof.
  unfold last_tag_value.
  induction tags as [|t tags IH]; intros m; [done|].
  simpl. rewrite IH, filter_cons.
  destruct (decide (Tag_Key t = k)) as [<-|Hne].
  - rewrite last_cons. destruct (last _); simpl; [done|].
    by rewrite lookup_insert_eq.
  - destruct (last _); simpl; [done|]. by rewrite lookup_insert_ne.
Qed.

(** X9: the tags a Read stores are the remote tags by key, and where the
    remote list repeats a key the last of its values is the one stored. *)
Theorem tags_map_last_value_wins tags k :
  tags_map tags !! k = last_tag_value tags k.
Proof.
  unfold tags_map. rewrite tags_fold_lookup, lookup_empty.
  by destruct (last_tag_value tags k).
Qed.

(** X10: a successful Read of the network resource makes the record mirror
    the network it found: the identifier is the text of its ID, name,
    display_text and zone are its name, display text and zone name, tags is
    its tags by key; every other attribute apart from the three of the
    range (network_offering among them), the prior state and the schema are
    as they were. *)
Theorem network_read_mirrors_remote st st' :
  rd_schema (data st) = resourceNetworkSchema →
  resourceNetworkRead st = (Ok tt, st') →
  ∃ id zoneID r n,
    (RequestWithContext (ListNetworks (Some id) zoneID),
     Reply_ok (RNetworks r)) ∈ trace st'
    ∧ head (LNR_Network r) = Some n
    ∧ Some (Id (data st')) = UUID_String <$> Network_ID n
    ∧ GetString (data st') "name" = Network_Name n
    ∧ GetString (data st') "display_text" = Network_DisplayText n
    ∧ GetString (data st') "zone" = Network_ZoneName n
    ∧ rd_attrs (data st') !! "tags" = Some (VMap (tags_map (Network_Tags n)))
    ∧ (∀ key, key ∉ network_written →
         rd_attrs (data st') !! key = rd_attrs (data st) !! key)
    ∧ rd_state (data st') = rd_state (data st)
    ∧ rd_schema (data st') = rd_schema (data st).
Proof.
  intros Hs E.
  destruct (resourceNetworkRead_Ok st st' Hs E)
    as (r & n & rest & nid & st1 & EF & EN & Eid & ->).
  apply resourceNetworkFind_Ok in EF
    as (id & _ & _ & _ & _ & evs & zoneID & Ht & Hin).
  exists id, zoneID, r, n.
  split. { simpl. rewrite Ht. apply elem_of_app. by right. }
  split; [by rewrite EN|].
  unfold applied, GetString. destruct (range_values n) as [[s e] m]. simpl.
  rewrite Eid. repeat split; try done; try by simplify_map_eq.
  intros key Hkey. unfold network_written in Hkey.
  rewrite !lookup_insert_ne; [done|..]; intros <-; apply Hkey;
    repeat first [by left|right].
Qed.

(** ** More on Update and Create of the network resource *)

Lemma bind_Err {A B} (m : M A) (k : A → M B) st e st' :
  m st = (Err e, st') → bind m k st = (Err e, st').
Proof. intros E. unfold bind. by rewrite E. Qed.

Lemma send_requests_all requests :
  ∀ resps more st,
    remote st = (Reply_ok <$> resps) ++ more →
    length resps = length requests →
    send_requests requests st
    = (Ok tt, {| data := data st; remote := more;
                 trace := trace st ++ sent requests resps;
                 logs := logs st |}).
Proof.
  induction requests as [|req requests IH]; intros resps more st Hr Hl.
  - destruct resps; [|done]. simpl in *. unfold ret, sent. simpl.
    rewrite app_nil_r, <- Hr. by destruct st.
  - destruct resps as [|resp resps]; [done|]. simpl in Hr, Hl.
    injection Hl as Hl. cbn [send_requests].
    rewrite (bind_Ok _ _ _ _ _ (client_step _ _ _ _ Hr)). simpl.
    unfold bind at 1. simpl.
    rewrite (IH resps more); [|done..]. simpl. unfold sent. simpl.
    by rewrite <- app_assoc.
Qed.

Lemma send_requests_failing before failing after :
  ∀ resps e more st,
    remote st = (Reply_ok <$> resps) ++ Reply_err e :: more →
    length resps = length before →
    send_requests (before ++ failing :: after) st
    = (Err e, {| data := data st; remote := more;
                 trace := trace st ++ sent before resps
                          ++ [(RequestWithContext failing, Reply_err e)];
                 logs := logs st |}).
Proof.
  induction before as [|req before IH]; intros resps e more st Hr Hl.
  - destruct resps; [|done]. simpl in *.
    by rewrite (bind_Ok _ _ _ _ _ (client_step _ _ _ _ Hr)).
  - destruct resps as [|resp resps]; [done|]. simpl in Hr, Hl.
    injection Hl as Hl. cbn [app send_requests].
    rewrite (bind_Ok _ _ _ _ _ (client_step _ _ _ _ Hr)). simpl.
    unfold bind at 1. simpl.
    rewrite (IH resps e more); [|done..]. simpl. unfold sent. simpl.
    by rewrite <- app_assoc.
Qed.

Lemma not_cleared_test d key :
  ¬ cleared d key →
  negb (String.eqb (fst (GetChange d key)) "")
  && String.eqb (snd (GetChange d key)) "" = false.
Proof.
  intros Hn. apply not_true_is_false. intros T. apply Hn.
  apply andb_true_iff in T as [To Tn]. apply negb_true_iff in To.
  split; [by apply String.eqb_neq|by apply String.eqb_eq].
Qed.

(** [resourceNetworkUpdate] up to its requests, when no end of the range is
    cleared. *)
Lemma resourceNetworkUpdate_sends st id requests :
  ParseUUID (Id (data st)) = inr id →
  ¬ cleared (data st) "start_ip" → ¬ cleared (data st) "end_ip" →
  updateTags (data st) "tags" Network_ResourceType = inr requests →
  resourceNetworkUpdate st
  = bind (send_requests (requests ++ [update_request (data st) id]))
         (λ _, bind (tflog DEBUG "update finished successfully")
                    (λ _, resourceNetworkRead))
         (logged DEBUG "beginning update" st).
Proof.
  intros Hid H1 H2 Ht.
  apply not_cleared_test in H1, H2. cbn [GetChange fst snd] in H1, H2.
  unfold resourceNetworkUpdate. unfold bind at 1. simpl.
  fold (logged DEBUG "beginning update" st).
  unfold bind at 1. simpl. rewrite Hid, Ht. unfold bind at 1.
  destruct (HasChange (data st) "start_ip" || HasChange (data st) "end_ip");
    [|done].
  cbn [check_not_cleared GetChange]. by rewrite H1, H2.
Qed.

(** X11: an Update that clears neither end of the range sends the tag
    requests in the order [updateTags] gives them and the update request
    last; at the first request that fails it returns that request's error
    and sends nothing more (no later request, no Read), and the record is as
    it was.  A cleared netmask alone does not stop it. *)
Theorem update_stops_at_first_failing_request
    st id requests before failing after resps e more :
  ParseUUID (Id (data st)) = inr id →
  ¬ cleared (data st) "start_ip" → ¬ cleared (data st) "end_ip" →
  updateTags (data st) "tags" Network_ResourceType = inr requests →
  requests ++ [update_request (data st) id] = before ++ failing :: after →
  remote st = (Reply_ok <$> resps) ++ Reply_err e :: more →
  length resps = length before →
  fst (resourceNetworkUpdate st) = Err e
  ∧ trace (snd (resourceNetworkUpdate st))
    = trace st ++ sent before resps
      ++ [(RequestWithContext failing, Reply_err e)]
  ∧ data (snd (resourceNetworkUpdate st)) = data st.
Proof.
  intros Hid H1 H2 Ht Hsplit Hr Hl.
  rewrite (resourceNetworkUpdate_sends st id requests Hid H1 H2 Ht), Hsplit.
  rewrite (bind_Err _ _ _ _ _
             (send_requests_failing before failing after resps e more
                (logged DEBUG "beginning update" st) Hr Hl)).
  done.
Qed.

(** X12: an Update that clears neither end of the range and whose requests
    (the tag requests, then the update request) all succeed ends as the
    Read that it runs after them ends: what the record holds after Update
    is what Read finds remotely, not what the configuration said. *)
Theorem update_ends_in_read st id requests resps more :
  ParseUUID (Id (data st)) = inr id →
  ¬ cleared (data st) "start_ip" → ¬ cleared (data st) "end_ip" →
  updateTags (data st) "tags" Network_ResourceType = inr requests →
  remote st = (Reply_ok <$> resps) ++ more →
  length resps = length (requests ++ [update_request (data st) id]) →
  resourceNetworkUpdate st
  = resourceNetworkRead
      {| data := data st; remote := more;
         trace := trace st
                  ++ sent (requests ++ [update_request (data st) id]) resps;
         logs := logs st ++ [(DEBUG, "beginning update");
                             (DEBUG, "update finished successfully")] |}.
Proof.
  intros Hid H1 H2 Ht Hr Hl.
  rewrite (resourceNetworkUpdate_sends st id requests Hid H1 H2 Ht).
  unfold bind at 1. rewrite (send_requests_all _ resps more); [|done..].
  unfold bind at 1. simpl. by rewrite <- app_assoc.
Qed.

(** X13: a Create whose create request fails returns the error of the
    request: the record keeps its (empty) identifier and its attributes, and
    nothing is sent after the create request (no tag request, no delete, no
    Read). *)
Theorem create_request_failure_leaves_record st zones zone e more :
  remote st = Reply_ok (RZones zones) :: Reply_err e :: more →
  resolves zones (GetString (data st) "zone") zone →
  range_unpaired (data st) || range_without_mask (data st) = false →
  fst (resourceNetworkCreate st) = Err e
  ∧ trace (snd (resourceNetworkCreate st))
    = trace st ++
      [ (RequestWithContext ListZones, Reply_ok (RZones zones));
        (RequestWithContext (create_request (data st) zone), Reply_err e) ]
  ∧ data (snd (resourceNetworkCreate st)) = data st.
Proof.
  intros Hr Hz Hgood.
  apply orb_false_iff in Hgood as [H1 H2].
  unfold range_unpaired, range_without_mask in H1, H2. cbv zeta in H1, H2.
  assert (E : resourceNetworkCreate st
    = (Err e,
       called (RequestWithContext (create_request (data st) zone))
              (Reply_err e) more
         (called (RequestWithContext ListZones) (Reply_ok (RZones zones))
                 (Reply_err e :: more)
                 (logged DEBUG "beginning create" st)))).
  { unfold resourceNetworkCreate.
    unfold bind at 1. simpl. unfold bind at 1. simpl. unfold bind at 1.
    rewrite getZoneByName_unfold. simpl. rewrite Hr. simpl.
    unfold resolves in Hz. rewrite Hz, H1, H2.
    unfold bind at 1, client. simpl. by unfold bind at 1. }
  rewrite E. simpl. by rewrite <- app_assoc.
Qed.

(** X14: a Create whose network is created but whose tag command cannot be
    built ([createTags] returns an error) returns that error with the new
    identifier stored, and sends nothing after the create request: unlike
    after a failed tag request, no delete of the new network is tried. *)
Theorem create_keeps_network_when_tags_cannot_be_built
    st zones zone n id err more :
  remote st = Reply_ok (RZones zones) :: Reply_ok (RNetwork n) :: more →
  resolves zones (GetString (data st) "zone") zone →
  range_unpaired (data st) || range_without_mask (data st) = false →
  Network_ID n = Some id →
  createTags (SetId (UUID_String id) (data st)) "tags" Network_ResourceType
  = inl err →
  fst (resourceNetworkCreate st) = Err err
  ∧ trace (snd (resourceNetworkCreate st))
    = trace st ++
      [ (RequestWithContext ListZones, Reply_ok (RZones zones));
        (RequestWithContext (create_request (data st) zone),
         Reply_ok (RNetwork n)) ]
  ∧ data (snd (resourceNetworkCreate st))
    = SetId (UUID_String id) (data st).
Proof.
  intros Hr Hz Hgood Hid Htags.
  apply orb_false_iff in Hgood as [H1 H2].
  unfold range_unpaired, range_without_mask in H1, H2. cbv zeta in H1, H2.
  assert (E : resourceNetworkCreate st
    = (Err err,
       with_data (SetId (UUID_String id) (data st))
         (called (RequestWithContext (create_request (data st) zone))
                 (Reply_ok (RNetwork n)) more
            (called (RequestWithContext ListZones) (Reply_ok (RZones zones))
                    (Reply_ok (RNetwork n) :: more)
                    (logged DEBUG "beginning create" st))))).
  { unfold resourceNetworkCreate.
    unfold bind at 1. simpl. unfold bind at 1. simpl. unfold bind at 1.
    rewrite getZoneByName_unfold. simpl. rewrite Hr. simpl.
    unfold resolves in Hz. rewrite Hz, H1, H2.
    unfold bind at 1, client. simpl.
    unfold bind at 1. simpl. unfold bind at 1. simpl.
    unfold bind at 1. rewrite Hid. simpl.
    unfold bind at 1. simpl. unfold bind at 1.
    unfold bind at 1. simpl. unfold SetId in Htags. unfold SetId.
    by rewrite Htags. }
  rewrite E. simpl. by rewrite <- app_assoc.
Qed.

(** ** More on the network data source *)

Lemma dataSourceNetworkRead_loop_by_id want nets :
  Forall (λ n, Network_Name n ≠ "" ∧ is_Some (Network_ID n)) nets →
  ∀ network,
    dataSourceNetworkRead_loop true (Some want) "" (Item_Network <$> nets)
                               network
    = Ok (match head (with_id want nets) with
          | Some n => Some n
          | None => network
          end).
Proof.
  unfold with_id.
  induction 1 as [|net nets [Hname [have Hid]] _ IH]; intros network;
    [by destruct network|].
  simpl. rewrite Hid, filter_cons, Hid.
  destruct (decide (have = want)) as [->|Hne].
  - by rewrite decide_True.
  - rewrite decide_False by congruence.
    destruct (String.eqb_spec (Network_Name net) "") as [?|_]; [done|].
    apply IH.
Qed.

Lemma dataSourceNetworkRead_loop_id_miss want name nets :
  Forall (λ n, ∃ have, Network_ID n = Some have ∧ have ≠ want) nets →
  ∀ network,
    dataSourceNetworkRead_loop true (Some want) name (Item_Network <$> nets)
                               network
    = dataSourceNetworkRead_loop false (Some want) name
                                 (Item_Network <$> nets) network.
Proof.
  induction 1 as [|net nets (have & Hid & Hne) _ IH]; intros network;
    [done|].
  simpl. rewrite Hid, decide_False by done.
  destruct (String.eqb (Network_Name net) name); [|apply IH].
  destruct network; [done|apply IH].
Qed.

(** X15: the network data source queried by ID, in a zone whose networks
    all carry a name: with no network of that ID in the listing the read
    fails with the not-found error; otherwise it succeeds and sets the
    record from the first network of that ID. *)
Theorem data_source_read_by_id st zones zone nets more want :
  rd_schema (data st) = dataSourceNetworkSchema →
  remote st = Reply_ok (RZones zones)
              :: Reply_ok (RList (Item_Network <$> nets)) :: more →
  resolves zones (GetString (data st) "zone") zone →
  GetOk (data st) "name" = false →
  GetOk (data st) "id" = true →
  ParseUUID (GetString (data st) "id") = inr want →
  Forall (λ n, Network_Name n ≠ "" ∧ is_Some (Network_ID n)) nets →
  (with_id want nets = [] →
     fst (dataSourceNetworkRead st) = Err (errors_New "network not found"))
  ∧ (∀ n rest, with_id want nets = n :: rest →
       fst (dataSourceNetworkRead st) = Ok tt
       ∧ data (snd (dataSourceNetworkRead st)) = ds_applied n want (data st)).
Proof.
  intros Hs Hr Hz Hname Hid Hp Hall.
  assert (Hcrit : id_criterion (data st) (Some want)) by done.
  rewrite (dataSourceNetworkRead_listed st zones zone _ more (Some want)
             Hs Hr Hz (or_intror Hid) Hcrit).
  rewrite Hid, Hname, (dataSourceNetworkRead_loop_by_id want nets Hall).
  split.
  - by intros ->.
  - intros n rest Hhits. rewrite Hhits. simpl.
    assert (Hn : Network_ID n = Some want).
    { assert (Hin : n ∈ with_id want nets) by (rewrite Hhits; by left).
      unfold with_id in Hin. by apply list_elem_of_filter in Hin as [? _]. }
    by rewrite Hn.
Qed.

(** X16: the network data source queried by ID compares every listed
    network's name with the empty name it was not given.  So when no listed
    network has the wanted ID, the read is decided by the networks without a
    name: with none it fails with the not-found error, with several it
    fails with the error about multiple networks, and with exactly one it
    succeeds and sets the record from that network, whose ID is not the one
    asked for. *)
Theorem data_source_read_by_id_takes_unnamed st zones zone nets more want :
  rd_schema (data st) = dataSourceNetworkSchema →
  remote st = Reply_ok (RZones zones)
              :: Reply_ok (RList (Item_Network <$> nets)) :: more →
  resolves zones (GetString (data st) "zone") zone →
  GetOk (data st) "name" = false →
  GetOk (data st) "id" = true →
  ParseUUID (GetString (data st) "id") = inr want →
  Forall (λ n, ∃ have, Network_ID n = Some have ∧ have ≠ want) nets →
  (named "" nets = [] →
     fst (dataSourceNetworkRead st) = Err (errors_New "network not found"))
  ∧ (∀ n id, named "" nets = [n] → Network_ID n = Some id →
       id ≠ want
       ∧ fst (dataSourceNetworkRead st) = Ok tt
       ∧ Id (data (snd (dataSourceNetworkRead st))) = UUID_String id)
  ∧ (1 < length (named "" nets) →
       fst (dataSourceNetworkRead st) = Err (ambiguous_error "")).
Proof.
  intros Hs Hr Hz Hname Hid Hp Hall.
  assert (Hcrit : id_criterion (data st) (Some want)) by done.
  rewrite (dataSourceNetworkRead_listed st zones zone _ more (Some want)
             Hs Hr Hz (or_intror Hid) Hcrit).
  rewrite Hid, Hname, (dataSourceNetworkRead_loop_id_miss want "" nets Hall),
    dataSourceNetworkRead_loop_by_name.
  split; [|split].
  - by intros ->.
  - intros n id Hone Hn. rewrite Hone, Hn. simpl.
    split; [|split; [done|]].
    + assert (Hin : n ∈ nets).
      { assert (Hin : n ∈ named "" nets) by (rewrite Hone; by left).
        unfold named in Hin. by apply list_elem_of_filter in Hin as [_ ?]. }
      rewrite Forall_forall in Hall.
      destruct (Hall n Hin) as (have & Hhave & Hne). congruence.
    + unfold ds_applied. by destruct (range_values n) as [[? ?] ?].
  - destruct (named "" nets) as [|n1 [|n2 ms]]; simpl; [lia|lia|done].
Qed.

(** X17: the network data source checks its search criteria after the zone
    is resolved and before it lists the networks: with neither name nor id
    set, or with an id that does not parse, it fails having requested the
    zone listing only; and a failure of the network listing is returned
    wrapped, with the record as it was. *)
Theorem data_source_read_early_errors :
  (∀ st zones zone more,
     remote st = Reply_ok (RZones zones) :: more →
     resolves zones (GetString (data st) "zone") zone →
     GetOk (data st) "name" = false →
     GetOk (data st) "id" = false →
     dataSourceNetworkRead st
     = (Err (errors_New "either name or id must be specified"),
        called (RequestWithContext ListZones) (Reply_ok (RZones zones))
               more st))
  ∧ (∀ st zones zone more err,
       remote st = Reply_ok (RZones zones) :: more →
       resolves zones (GetString (data st) "zone") zone →
       GetOk (data st) "id" = true →
       ParseUUID (GetString (data st) "id") = inl err →
       dataSourceNetworkRead st
       = (Err (fmt_Errorf_wrap "invalid value for id: %s" err),
          called (RequestWithContext ListZones) (Reply_ok (RZones zones))
                 more st))
  ∧ (∀ st zones zone more e networkID,
       remote st = Reply_ok (RZones zones) :: Reply_err e :: more →
       resolves zones (GetString (data st) "zone") zone →
       (GetOk (data st) "name" = true ∨ GetOk (data st) "id" = true) →
       id_criterion (data st) networkID →
       fst (dataSourceNetworkRead st)
       = Err (fmt_Errorf_wrap "networks listing failed: %s" e)
       ∧ data (snd (dataSourceNetworkRead st)) = data st).
Proof.
  split; [|split].
  - intros st zones zone more Hr Hz Hname Hid.
    unfold dataSourceNetworkRead. unfold bind at 1. simpl.
    unfold bind at 1. rewrite getZoneByName_unfold, Hr. simpl.
    unfold resolves in Hz. by rewrite Hz, Hname, Hid.
  - intros st zones zone more err Hr Hz Hid Hp.
    unfold dataSourceNetworkRead. unfold bind at 1. simpl.
    unfold bind at 1. rewrite getZoneByName_unfold, Hr. simpl.
    unfold resolves in Hz. rewrite Hz, Hid, Hp, andb_false_r.
    by unfold bind at 1.
  - intros st zones zone more e networkID Hr Hz Hby Hcrit.
    assert (E : dataSourceNetworkRead st
      = (Err (fmt_Errorf_wrap "networks listing failed: %s" e),
         called (ListWithContext (ListNetworks None (Zone_ID zone)))
                (Reply_err e) more
           (called (RequestWithContext ListZones) (Reply_ok (RZones zones))
                   (Reply_err e :: more) st))).
    { unfold dataSourceNetworkRead. unfold bind at 1. simpl.
      unfold bind at 1. rewrite getZoneByName_unfold, Hr. simpl.
      unfold resolves in Hz. rewrite Hz.
      assert (negb (GetOk (data st) "name") && negb (GetOk (data st) "id")
              = false) as ->.
      { destruct Hby as [H|H]; rewrite H; [done|apply andb_false_r]. }
      assert (Hpid :
        (if GetOk (data st) "id"
         then match ParseUUID (GetString (data st) "id") with
              | inr id => ret (Some id)
              | inl err =>
                  fail (fmt_Errorf_wrap "invalid value for id: %s" err)
              end
         else ret None)
        = ret networkID).
      { destruct networkID as [id|]; simpl in Hcrit.
        - destruct Hcrit as [-> ->]. done.
        - by rewrite Hcrit. }
      rewrite Hpid. unfold bind at 1. simpl. by unfold bind at 1, client. }
    by rewrite E.
Qed.

(** X18: a successful Read of the network data source makes the record
    mirror a network of the listing: the identifier is the text of its ID
    and the id attribute holds the same text, name and description are its
    name and display text; the zone attribute, the prior state and the
    schema are as they were. *)
Theorem data_source_read_mirrors_remote st st' :
  rd_schema (data st) = dataSourceNetworkSchema →
  dataSourceNetworkRead st = (Ok tt, st') →
  ∃ zoneID items n,
    (ListWithContext (ListNetworks None zoneID), Reply_ok (RList items))
      ∈ trace st'
    ∧ Item_Network n ∈ items
    ∧ Some (Id (data st')) = UUID_String <$> Network_ID n
    ∧ GetString (data st') "id" = Id (data st')
    ∧ GetString (data st') "name" = Network_Name n
    ∧ GetString (data st') "description" = Network_DisplayText n
    ∧ GetString (data st') "zone" = GetString (data st) "zone"
    ∧ rd_state (data st') = rd_state (data st)
    ∧ rd_schema (data st') = rd_schema (data st).
Proof.
  intros Hs E.
  destruct (dataSourceNetworkRead_Ok_shape st st' E)
    as (zones & zone & items & more & networkID & Hr & Hz & Hby & Hid).
  rewrite (dataSourceNetworkRead_listed st zones zone items more networkID
             Hs Hr Hz Hby Hid) in E.
  destruct (dataSourceNetworkRead_loop _ _ _ _ _) as [[n|]|e|msg] eqn:EL;
    try done.
  destruct (Network_ID n) as [id|] eqn:Hn; [|done].
  injection E as <-.
  apply dataSourceNetworkRead_loop_Ok in EL as [?|Hin]; [done|].
  exists (Zone_ID zone), items, n.
  split. { simpl. apply elem_of_app. right. by left. }
  split; [done|].
  unfold ds_applied, GetString, Id. destruct (range_values n) as [[s e] m].
  simpl. repeat split; by simplify_map_eq.
Qed.

(** ** More on the anti-affinity group *)

(** X19: a Read of an anti-affinity group that the API returns makes the
    attributes mirror the group (name, description, type, and as members
    exactly the texts of the IDs of its virtual machines) and leaves the
    identifier as it was: the group's own ID is not read back. *)
Theorem affinity_read_mirrors_remote st id ag more :
  rd_schema (data st) = resourceAffinitySchema →
  ParseUUID (Id (data st)) = inr id →
  remote st = Reply_ok (RAffinityGroup ag) :: more →
  let d' := data (snd (resourceAffinityRead st)) in
  fst (resourceAffinityRead st) = Ok tt
  ∧ Id d' = Id (data st)
  ∧ GetString d' "name" = AG_Name ag
  ∧ GetString d' "description" = AG_Description ag
  ∧ GetString d' "type" = AG_Type ag
  ∧ rd_attrs d' !! "virtual_machine_ids" = Some (VSet (member_ids ag))
  ∧ ∀ x, x ∈ member_ids ag
         ↔ ∃ vm, vm ∈ AG_VirtualMachineIDs ag ∧ x = UUID_String vm.
Proof.
  intros Hs Hid Hr.
  rewrite (resourceAffinityRead_run st id _ more Hs Hid Hr). simpl.
  unfold GetString. simpl.
  repeat split; try by simplify_map_eq.
  - unfold member_ids. rewrite elem_of_list_to_set, list_elem_of_fmap.
    intros (vm & -> & Hin). by exists vm.
  - unfold member_ids. rewrite elem_of_list_to_set, list_elem_of_fmap.
    intros (vm & Hin & ->). by exists vm.
Qed.

End Properties.

(** * Concrete runs *)

#[local] Existing Instances demo_ext demo_helpers.

Lemma run_Ok {A} (m : M A) st a :
  fst (m st) = Ok a → m st = (Ok a, snd (m st)).
Proof. destruct (m st) as [o st']. simpl. by intros ->. Defined.

(** ** The lookup across zones *)

Lemma lookup_searches_zones_in_listing_order_witness :
  fst (resourceNetworkFind st_lookup)
  = Ok (mkListNetworksResponse 1 [net1])
  ∧ trace (snd (resourceNetworkFind st_lookup))
    = [ (RequestWithContext ListZones, Reply_ok (RZones [zoneA; zoneB]));
        (RequestWithContext (ListNetworks (Some uuid1) (Zone_ID zoneA)),
         Reply_err (ErrorResponse ParamError "zone not available"));
        (RequestWithContext (ListNetworks (Some uuid1) (Zone_ID zoneB)),
         Reply_ok (RNetworks (mkListNetworksResponse 1 [net1]))) ].
Proof.
  pose proof (lookup_searches_zones_in_listing_order st_lookup uuid1
    [zoneA; zoneB]
    [ParamErrorAnswer "zone not available";
     Listing (mkListNetworksResponse 1 [net1])] []) as H.
  destruct H as (H1 & H2 & _); [reflexivity..|]. split; [exact H1|exact H2].
Defined.

Lemma lookup_untyped_error_panics_witness :
  fst (resourceNetworkFind st_timeout) = Panic conversion_panic.
Proof.
  apply (lookup_untyped_error_panics st_timeout uuid1 zoneA []
           (errors_New "context deadline exceeded") []); reflexivity.
Defined.

(** ** Reads of a network *)

Lemma network_reads_set_range_all_or_none_witness :
  (∃ n, range_all_or_none n (data (snd (resourceNetworkRead st_read))))
  ∧ (∃ n, range_all_or_none n
            (data (snd (dataSourceNetworkRead
                          (st_ds_by_name "frontend" [net1; net_unmanaged]))))).
Proof.
  destruct network_reads_set_range_all_or_none as [Hres Hds]. split.
  - destruct (Hres st_read (snd (resourceNetworkRead st_read)))
      as (id & zoneID & r & n & _ & _ & H).
    + reflexivity.
    + apply run_Ok. reflexivity.
    + by exists n.
  - set (st := st_ds_by_name "frontend" [net1; net_unmanaged]).
    destruct (Hds st (snd (dataSourceNetworkRead st)))
      as (zoneID & items & n & _ & _ & H).
    + reflexivity.
    + apply run_Ok. reflexivity.
    + by exists n.
Defined.

(** ** Lookup by name *)

(** Two domains share the queried name: the read succeeds with the first
    one and reports no ambiguity. *)
Lemma domain_read_of_shared_name_succeeds :
  let st := st_domain "example.net" [dom3; dom1; dom2] in
  domains_named "example.net" [dom3; dom1; dom2] = [dom1; dom2]
  ∧ fst (dataSourceDomainRead st) = Ok tt
  ∧ Some (Id (data (snd (dataSourceDomainRead st)))) = Domain_ID dom1.
Proof. intros st. split; [|split]; reflexivity. Qed.

Lemma lookup_by_name_outcomes_witness :
  fst (dataSourceNetworkRead (st_ds_by_name "storage" [net1; net_unmanaged]))
  = Err (errors_New "network not found")
  ∧ fst (dataSourceNetworkRead (st_ds_by_name "backend" [net1; net_unmanaged]))
    = Ok tt
  ∧ fst (dataSourceNetworkRead (st_ds_by_name "backend" [net1; net1_twin]))
    = Err (ambiguous_error "backend")
  ∧ fst (dataSourceDomainRead (st_domain "example.com" [dom3; dom1]))
    = Err (fmt_Errorf "domain %q not found" ["example.com"])
  ∧ fst (dataSourceDomainRead (st_domain "example.net" [dom3; dom1])) = Ok tt.
Proof.
  destruct lookup_by_name_outcomes as [Hnet Hdom].
  split; [|split; [|split; [|split]]].
  - destruct (Hnet (st_ds_by_name "storage" [net1; net_unmanaged])
                   [zoneA; zoneB] zoneA [net1; net_unmanaged] [])
      as (H & _); [reflexivity..|]. by apply H.
  - destruct (Hnet (st_ds_by_name "backend" [net1; net_unmanaged])
                   [zoneA; zoneB] zoneA [net1; net_unmanaged] [])
      as (_ & H & _); [reflexivity..|].
    by destruct (H net1 uuid1).
  - destruct (Hnet (st_ds_by_name "backend" [net1; net1_twin])
                   [zoneA; zoneB] zoneA [net1; net1_twin] [])
      as (_ & _ & H); [reflexivity..|]. apply H. vm_compute. lia.
  - destruct (Hdom (st_domain "example.com" [dom3; dom1]) [dom3; dom1] [])
      as (H & _); [reflexivity|reflexivity| |by apply H].
    repeat constructor; by eexists.
  - destruct (Hdom (st_domain "example.net" [dom3; dom1]) [dom3; dom1] [])
      as (_ & H); [reflexivity|reflexivity| |].
    + repeat constructor; by eexists.
    + by destruct (H dom1 [] "89083a5c-b648-474a-0000-0000000a0001").
Defined.

(** ** Create of a network *)

(** A start_ip without an end_ip: the zone listing is requested before the
    validation error is reported, and when the zone listing fails the
    validation error is not reported at all. *)
Lemma create_resolves_zone_before_validation :
  let st := st_unpaired [Reply_ok (RZones [zoneA])] in
  let st_down := st_unpaired [Reply_err (errors_New "connection refused")] in
  fst (resourceNetworkCreate st)
  = Err (errors_New "start_ip and end_ip must be both specified")
  ∧ trace (snd (resourceNetworkCreate st))
    = [(RequestWithContext ListZones, Reply_ok (RZones [zoneA]))]
  ∧ fst (resourceNetworkCreate st_down)
    = Err (errors_New "connection refused").
Proof. intros st st_down. split; [|split]; reflexivity. Qed.

Lemma create_validates_after_zone_resolution_witness :
  let st := st_unpaired [Reply_ok (RZones [zoneA])] in
  fst (resourceNetworkCreate st)
  = Err (errors_New "start_ip and end_ip must be both specified")
  ∧ Forall (λ ev, mutating (fst ev) = false)
           (trace (snd (resourceNetworkCreate st))).
Proof.
  intros st.
  destruct (create_validates_after_zone_resolution st [zoneA] zoneA [])
    as (H1 & _ & H3 & _); [reflexivity..|].
  split; [exact H1|exact H3].
Defined.

Lemma create_cleans_up_after_tag_failure_witness :
  fst (resourceNetworkCreate st_tag_failure)
  = Err (ErrorResponse (OtherCode 530) "internal error")
  ∧ List.filter (λ ev, is_network_delete (fst ev))
                (trace (snd (resourceNetworkCreate st_tag_failure)))
    = [ (BooleanRequestWithContext (DeleteNetwork (Some uuid1)),
         Reply_err (errors_New "context deadline exceeded")) ]
  ∧ logs (snd (resourceNetworkCreate st_tag_failure))
    = [(DEBUG, "beginning create"); tag_failure_warning].
Proof.
  destruct (create_cleans_up_after_tag_failure st_tag_failure [zoneA] zoneA
              net1 uuid1
              (CreateTags [uuid1] "Network" [mkResourceTag "env" "prod"])
              (ErrorResponse (OtherCode 530) "internal error")
              [Reply_err (errors_New "context deadline exceeded")])
    as (H1 & H2 & H3); [reflexivity..|].
  split; [exact H1|]. split; [|exact H3].
  rewrite H2. reflexivity.
Defined.

(** ** Update of a network *)

Lemma update_rejects_clearing_range_witness :
  resourceNetworkUpdate st_clear
  = (Err (recreate_error "start_ip" "10.0.0.10"),
     logged DEBUG "beginning update" st_clear).
Proof.
  destruct (update_rejects_clearing_range st_clear) as (e & H & He).
  - left. split; [vm_compute; discriminate|reflexivity].
  - destruct (He uuid1 eq_refl) as (key & [->| ->] & Hc & ->).
    + exact H.
    + exfalso. destruct Hc as [_ Hc]. vm_compute in Hc. discriminate.
Defined.

Lemma update_keeps_identifier_witness :
  fst (resourceNetworkUpdate st_rename) = Ok tt
  ∧ Id (data (snd (resourceNetworkUpdate st_rename))) = uuid1.
Proof.
  assert (E : fst (resourceNetworkUpdate st_rename) = Ok tt)
    by (reflexivity).
  split; [exact E|].
  apply (update_keeps_identifier st_rename _ uuid1);
    [reflexivity|reflexivity|reflexivity|by apply run_Ok|].
  apply honours_id_filter_test. reflexivity.
Defined.

(** ** Exists *)


(** ** Create, then Read again *)

Lemma create_then_read_converges_witness :
  (∃ st1 rs,
     resourceNetworkRead st1 = (Ok tt, snd (resourceNetworkCreate st_create))
     ∧ ∀ more,
         data (snd (resourceNetworkRead
                      {| data := data (snd (resourceNetworkCreate st_create));
                         remote := rs ++ more;
                         trace := trace (snd (resourceNetworkCreate st_create));
                         logs := logs (snd (resourceNetworkCreate st_create))
                      |}))
         = data (snd (resourceNetworkCreate st_create)))
  ∧ (∃ st1,
       resourceAffinityRead st1
       = (Ok tt, snd (resourceAffinityCreate st_affinity_create))).
Proof.
  destruct create_then_read_converges as [Hnet Hag]. split.
  - destruct (Hnet st_create (snd (resourceNetworkCreate st_create)))
      as (st1 & zone & n & id & rs & _ & _ & _ & E & _ & Hre).
    + reflexivity.
    + apply run_Ok. reflexivity.
    + exists st1, rs. split; [exact E|]. intros more.
      apply (Hre uuid1 more). reflexivity.
  - destruct (Hag st_affinity_create
                  (snd (resourceAffinityCreate st_affinity_create)))
      as (st1 & ag & id & r & _ & _ & _ & E & _).
    + reflexivity.
    + apply run_Ok. reflexivity.
    + by exists st1.
Defined.

(** ** Further runs *)

Lemma failed_read_keeps_record_witness :
  fst (dataSourceNetworkRead (st_ds_by_name "storage" [net1]))
  = Err (errors_New "network not found")
  ∧ data (snd (dataSourceNetworkRead (st_ds_by_name "storage" [net1])))
    = data (st_ds_by_name "storage" [net1]).
Proof.
  split; [reflexivity|].
  destruct failed_read_keeps_record as (_ & H & _).
  destruct (H (st_ds_by_name "storage" [net1]) eq_refl) as [[a Ha]|Hd];
    [discriminate Ha|exact Hd].
Defined.

Lemma network_callbacks_on_ill_formed_identifier_witness :
  fst (resourceNetworkRead st_bad_id) = Panic "MustParseUUID"
  ∧ fst (resourceNetworkExists st_bad_id) = Panic "MustParseUUID"
  ∧ fst (resourceNetworkUpdate st_bad_id)
    = Err (fmt_Errorf "uuid: incorrect UUID format %s" ["my-network"])
  ∧ fst (resourceNetworkDelete st_bad_id)
    = Err (fmt_Errorf "uuid: incorrect UUID format %s" ["my-network"]).
Proof.
  destruct (network_callbacks_on_ill_formed_identifier st_bad_id
              (fmt_Errorf "uuid: incorrect UUID format %s" ["my-network"])
              eq_refl) as (H1 & H2 & H3 & H4).
  by rewrite H1, H2, H3, H4.
Defined.

Lemma network_delete_sends_one_request_witness :
  fst (resourceNetworkDelete st_delete_absent)
  = Err (ErrorResponse NotFound "entity does not exist")
  ∧ Id (data (snd (resourceNetworkDelete st_delete_absent))) = uuid1.
Proof.
  destruct (network_delete_sends_one_request st_delete_absent uuid1 eq_refl)
    as (H1 & _ & H3).
  split; [exact H1|]. by rewrite H3.
Defined.

Lemma affinity_delete_sends_one_request_witness :
  fst (resourceAffinityDelete st_affinity_delete) = Ok tt
  ∧ trace (snd (resourceAffinityDelete st_affinity_delete))
    = [(DeleteWithContext (AffinityGroup_byID uuid1), Reply_ok RNil)].
Proof.
  destruct (affinity_delete_sends_one_request st_affinity_delete uuid1
              eq_refl) as (H1 & H2 & _).
  split; [exact H1|exact H2].
Defined.

Lemma lookup_stops_at_api_error_witness :
  fst (resourceNetworkFind st_zone_error)
  = Err (ErrorResponse (OtherCode 530) "internal error")
  ∧ fst (resourceNetworkExists st_zone_error)
    = Ok (false, Some (ErrorResponse (OtherCode 530) "internal error")).
Proof.
  destruct (lookup_stops_at_api_error st_zone_error uuid1 [zoneA] zoneB []
              [Listing (mkListNetworksResponse 0 [])] (OtherCode 530)
              "internal error" [])
    as (H1 & _ & _ & H4); [reflexivity|done|done|reflexivity..|].
  split; [exact H1|exact H4].
Defined.

Lemma read_trusts_response_count_witness :
  fst (resourceNetworkRead st_count_only) = Panic index_panic
  ∧ fst (resourceNetworkExists st_count_only) = Ok (true, None).
Proof.
  destruct (read_trusts_response_count st_count_only uuid1 [zoneA]
              [Listing (mkListNetworksResponse 1 [])] []
              (mkListNetworksResponse 1 []))
    as (H1 & _ & H3); [reflexivity..|].
  split; [exact H1|exact H3].
Defined.

Lemma network_read_mirrors_remote_witness :
  GetString (data (snd (resourceNetworkRead st_read))) "name" = "backend"
  ∧ rd_attrs (data (snd (resourceNetworkRead st_read))) !! "network_offering"
    = None.
Proof.
  destruct (network_read_mirrors_remote st_read
              (snd (resourceNetworkRead st_read)))
    as (id & zoneID & r & n & _ & _ & _ & _ & _ & _ & _ & H & _).
  - reflexivity.
  - apply run_Ok. reflexivity.
  - split; [reflexivity|]. rewrite (H "network_offering"); [reflexivity|].
    unfold network_written. intros Hin.
    repeat (apply elem_of_cons in Hin as [Hin|Hin]; [discriminate Hin|]).
    by apply elem_of_nil in Hin.
Defined.

Lemma update_stops_at_first_failing_request_witness :
  fst (resourceNetworkUpdate st_tag_update_fails)
  = Err (ErrorResponse (OtherCode 530) "internal error")
  ∧ trace (snd (resourceNetworkUpdate st_tag_update_fails))
    = [(RequestWithContext
          (CreateTags [uuid1] "Network" [mkResourceTag "env" "prod"]),
        Reply_err (ErrorResponse (OtherCode 530) "internal error"))].
Proof.
  destruct (update_stops_at_first_failing_request st_tag_update_fails uuid1
              [CreateTags [uuid1] "Network" [mkResourceTag "env" "prod"]]
              []
              (CreateTags [uuid1] "Network" [mkResourceTag "env" "prod"])
              [update_request (data st_tag_update_fails) uuid1]
              [] (ErrorResponse (OtherCode 530) "internal error") [])
    as (H1 & H2 & _).
  - reflexivity.
  - intros [_ H]. vm_compute in H. discriminate.
  - intros [_ H]. vm_compute in H. discriminate.
  - reflexivity.
  - reflexivity.
  - reflexivity.
  - reflexivity.
  - split; [exact H1|exact H2].
Defined.

Lemma update_ends_in_read_witness :
  fst (resourceNetworkUpdate st_rename) = Ok tt
  ∧ GetString (data (snd (resourceNetworkUpdate st_rename))) "name"
    = "backend".
Proof.
  rewrite (update_ends_in_read st_rename uuid1 [] [RNetwork net1]
             [ Reply_ok (RZones [zoneA; zoneB]);
               Reply_err (ErrorResponse ParamError "zone not available");
               Reply_ok (RNetworks (mkListNetworksResponse 1 [net1])) ]).
  - split; reflexivity.
  - reflexivity.
  - intros [_ H]. vm_compute in H. discriminate.
  - intros [_ H]. vm_compute in H. discriminate.
  - reflexivity.
  - reflexivity.
  - reflexivity.
Defined.

Lemma create_request_failure_leaves_record_witness :
  fst (resourceNetworkCreate st_create_fails)
  = Err (ErrorResponse (OtherCode 530) "internal error")
  ∧ Id (data (snd (resourceNetworkCreate st_create_fails))) = "".
Proof.
  destruct (create_request_failure_leaves_record st_create_fails [zoneA]
              zoneA (ErrorResponse (OtherCode 530) "internal error") [])
    as (H1 & _ & H3); [reflexivity..|].
  split; [exact H1|]. by rewrite H3.
Defined.

Lemma create_keeps_network_when_tags_cannot_be_built_witness :
  fst (resourceNetworkCreate st_create_odd)
  = Err (fmt_Errorf "uuid: incorrect UUID format %s" ["net-1"])
  ∧ length (trace (snd (resourceNetworkCreate st_create_odd))) = 2.
Proof.
  destruct (create_keeps_network_when_tags_cannot_be_built st_create_odd
              [zoneA] zoneA net_odd odd_id
              (fmt_Errorf "uuid: incorrect UUID format %s" ["net-1"]) [])
    as (H1 & H2 & _); [reflexivity..|].
  split; [exact H1|]. by rewrite H2.
Defined.

Lemma data_source_read_by_id_witness :
  fst (dataSourceNetworkRead (st_ds_by_id uuid2 [net1; net_unmanaged]))
  = Ok tt
  ∧ fst (dataSourceNetworkRead (st_ds_by_id uuid2 [net1]))
    = Err (errors_New "network not found").
Proof.
  split.
  - destruct (data_source_read_by_id (st_ds_by_id uuid2 [net1; net_unmanaged])
                [zoneA; zoneB] zoneA [net1; net_unmanaged] [] uuid2)
      as (_ & H); [reflexivity..| |].
    + repeat constructor; try done; by eexists.
    + by destruct (H net_unmanaged [] eq_refl).
  - destruct (data_source_read_by_id (st_ds_by_id uuid2 [net1])
                [zoneA; zoneB] zoneA [net1] [] uuid2)
      as (H & _); [reflexivity..| |].
    + repeat constructor; try done; by eexists.
    + by apply H.
Defined.

Lemma data_source_read_by_id_takes_unnamed_witness :
  fst (dataSourceNetworkRead (st_ds_by_id uuid1 [net_unnamed])) = Ok tt
  ∧ Id (data (snd (dataSourceNetworkRead (st_ds_by_id uuid1 [net_unnamed]))))
    = uuid2.
Proof.
  destruct (data_source_read_by_id_takes_unnamed
              (st_ds_by_id uuid1 [net_unnamed])
              [zoneA; zoneB] zoneA [net_unnamed] [] uuid1)
    as (_ & H & _); [reflexivity..| |].
  - repeat constructor. exists uuid2. by split.
  - destruct (H net_unnamed uuid2 eq_refl eq_refl) as (_ & H1 & H2).
    split; [exact H1|exact H2].
Defined.

Lemma data_source_read_early_errors_witness :
  fst (dataSourceNetworkRead st_ds_no_criterion)
  = Err (errors_New "either name or id must be specified")
  ∧ fst (dataSourceNetworkRead (st_ds_by_id "backend" [net1]))
    = Err (fmt_Errorf_wrap "invalid value for id: %s"
             (fmt_Errorf "uuid: incorrect UUID format %s" ["backend"]))
  ∧ fst (dataSourceNetworkRead st_ds_listing_fails)
    = Err (fmt_Errorf_wrap "networks listing failed: %s"
             (errors_New "context deadline exceeded")).
Proof.
  destruct data_source_read_early_errors as (H1 & H2 & H3).
  split; [|split].
  - by rewrite (H1 st_ds_no_criterion [zoneA] zoneA []).
  - by rewrite (H2 (st_ds_by_id "backend" [net1]) [zoneA; zoneB] zoneA
                   [Reply_ok (RList [Item_Network net1])]
                   (fmt_Errorf "uuid: incorrect UUID format %s" ["backend"])).
  - by destruct (H3 st_ds_listing_fails [zoneA] zoneA []
                    (errors_New "context deadline exceeded") None
                    eq_refl eq_refl (or_introl eq_refl) eq_refl) as [H _].
Defined.

Lemma data_source_read_mirrors_remote_witness :
  let st := st_ds_by_name "frontend" [net1; net_unmanaged] in
  GetString (data (snd (dataSourceNetworkRead st))) "id"
  = Id (data (snd (dataSourceNetworkRead st))).
Proof.
  intros st.
  destruct (data_source_read_mirrors_remote st
              (snd (dataSourceNetworkRead st)))
    as (zoneID & items & n & _ & _ & _ & H & _).
  - reflexivity.
  - apply run_Ok. reflexivity.
  - exact H.
Defined.

Lemma affinity_read_mirrors_remote_witness :
  fst (resourceAffinityRead st_affinity_read) = Ok tt
  ∧ Id (data (snd (resourceAffinityRead st_affinity_read))) = uuid1
  ∧ uuid2 ∈ member_ids ag1.
Proof.
  destruct (affinity_read_mirrors_remote st_affinity_read uuid1 ag1 [])
    as (H1 & H2 & _ & _ & _ & _ & H7); [reflexivity..|].
  split; [exact H1|]. split; [by rewrite H2|].
  apply H7. exists uuid2. split; [by left|reflexivity].
Defined.
